(** * hitl_webhook: the pending-approval store and its webhook handlers

    A shallow embedding of [hitl_webhook.py].  Python values that travel
    through the module are JSON documents; they are embedded as the
    inductive [json].  The store file and the process-wide thread handle are
    explicit state, exceptions are explicit results.

    Conventions of the embedding:
    - a Python [str] is a [string] whose characters are the code points
      0..255; numbers are Python [int]s (JSON numbers with a fraction or an
      exponent, i.e. Python [float]s, are not part of the embedding);
    - a Python [dict] obtained from JSON is an association list in insertion
      order whose keys are pairwise distinct; lookup takes the first binding;
    - [json.load] and the parsing done by Flask are library code: a request
      body is given by the value the parser returns (or [None] when it
      fails), and the store file by the document it holds. *)

From Stdlib Require Import String Ascii ZArith List Bool Lia DecimalString.
Import ListNotations.

Local Open Scope string_scope.
Local Open Scope list_scope.
Local Open Scope Z_scope.

(** ** JSON documents as Python values *)

#[warnings="-register-all"]
Inductive json : Type :=
| JNull
| JBool (b : bool)
| JInt (n : Z)
| JStr (s : string)
| JList (items : list json)
| JObj (fields : list (string * json)).

(** ** Exceptions *)

Inductive exn_class : Type :=
| AttributeError
| TypeError
| KeyError
| ValueError
| RuntimeError
| OSError
| JSONDecodeError
| UnicodeDecodeError.

Record exn : Type := MkExn { exn_cls : exn_class; exn_msg : string }.

Inductive result (A : Type) : Type :=
| Ok (a : A)
| Raise (e : exn).

Arguments Ok {A} a.
Arguments Raise {A} e.

Definition rbind {A B : Type} (r : result A) (k : A -> result B) : result B :=
  match r with
  | Ok a => k a
  | Raise e => Raise e
  end.

Declare Scope res_scope.
Delimit Scope res_scope with res.
Notation "x <~ c ;; k" := (rbind c (fun x => k))
  (at level 61, c at next level, right associativity) : res_scope.

(** ** Characters and text *)

Definition dquote : ascii := "034"%char.
Definition squote : ascii := "039"%char.
Definition backslash : ascii := "092"%char.
Definition newline : ascii := "010"%char.

Definition chr (c : ascii) : string := String c EmptyString.

Definition ord (c : ascii) : N := N_of_ascii c.

Fixpoint join (sep : string) (parts : list string) : string :=
  match parts with
  | [] => EmptyString
  | [p] => p
  | p :: rest => p ++ sep ++ join sep rest
  end.

Fixpoint spaces (n : nat) : string :=
  match n with
  | O => EmptyString
  | S n' => String " "%char (spaces n')
  end.

Fixpoint string_mem (c : ascii) (s : string) : bool :=
  match s with
  | EmptyString => false
  | String d s' => Ascii.eqb c d || string_mem c s'
  end.

(** [str(n)] for an int. *)
Definition str_of_int (n : Z) : string := NilZero.string_of_int (Z.to_int n).

Definition hex_digit (n : N) : ascii :=
  match n with
  | 0 => "0" | 1 => "1" | 2 => "2" | 3 => "3" | 4 => "4" | 5 => "5"
  | 6 => "6" | 7 => "7" | 8 => "8" | 9 => "9" | 10 => "a" | 11 => "b"
  | 12 => "c" | 13 => "d" | 14 => "e" | _ => "f"
  end%N%char.

Definition hex2 (c : ascii) : string :=
  String (hex_digit (ord c / 16)) (String (hex_digit (ord c mod 16)) EmptyString).

(** The simple lower-case mapping of a code point below 256: [A-Z] and the
    capital letters U+00C0..U+00DE other than the multiplication sign. *)
Definition lower_char (c : ascii) : ascii :=
  let n := ord c in
  if ((65 <=? n) && (n <=? 90))%N then ascii_of_N (n + 32)
  else if ((192 <=? n) && (n <=? 222) && negb (n =? 215))%N then ascii_of_N (n + 32)
  else c.

Fixpoint lower (s : string) : string :=
  match s with
  | EmptyString => EmptyString
  | String c s' => String (lower_char c) (lower s')
  end.

(** ** Python semantics of JSON values *)

(** [bool(v)] *)
Definition truthy (v : json) : bool :=
  match v with
  | JNull => false
  | JBool b => b
  | JInt n => negb (n =? 0)
  | JStr s => negb (String.eqb s EmptyString)
  | JList l => match l with [] => false | _ => true end
  | JObj kv => match kv with [] => false | _ => true end
  end.

(** [a or b] *)
Definition py_or (a b : json) : json := if truthy a then a else b.

(** [type(v).__name__] *)
Definition type_name (v : json) : string :=
  match v with
  | JNull => "NoneType"
  | JBool _ => "bool"
  | JInt _ => "int"
  | JStr _ => "str"
  | JList _ => "list"
  | JObj _ => "dict"
  end.

Fixpoint assoc (k : string) (kv : list (string * json)) : option json :=
  match kv with
  | [] => None
  | (k', v) :: rest => if String.eqb k k' then Some v else assoc k rest
  end.

(** The value a dict binds to [k], [None] when it binds none. *)
Definition field (k : string) (kv : list (string * json)) : json :=
  match assoc k kv with
  | Some v => v
  | None => JNull
  end.

(** [d.get(k)] ; an object that is not a dict has no attribute [get]. *)
Definition dict_get (d : json) (k : string) : result json :=
  match d with
  | JObj kv => Ok (field k kv)
  | _ => Raise (MkExn AttributeError
                  (chr squote ++ type_name d ++ chr squote
                   ++ " object has no attribute " ++ chr squote ++ "get" ++ chr squote))
  end.

(** [d[k]] on a dict. *)
Definition subscript (d : json) (k : string) : result json :=
  match d with
  | JObj kv =>
      match assoc k kv with
      | Some v => Ok v
      | None => Raise (MkExn KeyError (chr squote ++ k ++ chr squote))
      end
  | _ => Raise (MkExn TypeError
                  (chr squote ++ type_name d ++ chr squote ++ " object is not subscriptable"))
  end.

(** [a == b] *)
Fixpoint py_eq (a b : json) : bool :=
  match a, b with
  | JNull, JNull => true
  | JBool x, JBool y => Bool.eqb x y
  | JBool x, JInt n => Z.b2z x =? n
  | JInt n, JBool y => n =? Z.b2z y
  | JInt n, JInt m => n =? m
  | JStr s, JStr t => String.eqb s t
  | JList xs, JList ys =>
      (fix all2 (xs ys : list json) : bool :=
         match xs, ys with
         | [], [] => true
         | x :: xs', y :: ys' => py_eq x y && all2 xs' ys'
         | _, _ => false
         end) xs ys
  | JObj xs, JObj ys =>
      Nat.eqb (List.length xs) (List.length ys)
      && forallb (fun kv : string * json =>
                    match assoc (fst kv) ys with
                    | Some w => py_eq (snd kv) w
                    | None => false
                    end) xs
  | _, _ => false
  end.

(** [for a in v] : the items a loop over [v] visits. *)
Fixpoint chars (s : string) : list json :=
  match s with
  | EmptyString => []
  | String c s' => JStr (chr c) :: chars s'
  end.

Definition py_iter (v : json) : result (list json) :=
  match v with
  | JList l => Ok l
  | JObj kv => Ok (map (fun p : string * json => JStr (fst p)) kv)
  | JStr s => Ok (chars s)
  | _ => Raise (MkExn TypeError
                  (chr squote ++ type_name v ++ chr squote ++ " object is not iterable"))
  end.

(** *** [repr] and [str] *)

(** Code points below 256 that [repr] writes as they are. *)
Definition printable (c : ascii) : bool :=
  let n := ord c in
  ((32 <=? n) && (n <=? 126) || (161 <=? n) && negb (n =? 173))%N.

Definition repr_char (quote c : ascii) : string :=
  if Ascii.eqb c quote || Ascii.eqb c backslash then String backslash (chr c)
  else if (ord c =? 9)%N then "\t"
  else if (ord c =? 10)%N then "\n"
  else if (ord c =? 13)%N then "\r"
  else if printable c then chr c
  else "\x" ++ hex2 c.

Fixpoint repr_chars (quote : ascii) (s : string) : string :=
  match s with
  | EmptyString => EmptyString
  | String c s' => repr_char quote c ++ repr_chars quote s'
  end.

(** [repr(s)] for a str: double quotes only when the text has a single
    quote and no double quote. *)
Definition repr_str (s : string) : string :=
  let quote := if string_mem squote s && negb (string_mem dquote s)
               then dquote else squote in
  chr quote ++ repr_chars quote s ++ chr quote.

Fixpoint py_repr (v : json) : string :=
  match v with
  | JNull => "None"
  | JBool true => "True"
  | JBool false => "False"
  | JInt n => str_of_int n
  | JStr s => repr_str s
  | JList l => "[" ++ join ", " (map py_repr l) ++ "]"
  | JObj kv =>
      "{" ++ join ", " (map (fun p : string * json =>
                             (repr_str (fst p) ++ ": " ++ py_repr (snd p))%string) kv) ++ "}"
  end.

(** [str(v)] *)
Definition py_str (v : json) : string :=
  match v with
  | JStr s => s
  | _ => py_repr v
  end.

(** *** [json.dumps(v, indent=2)] *)

(** One character of a JSON string with [ensure_ascii]: the short escapes,
    the printable ASCII characters as they are, any other code point as
    [\u00XX]. *)
Definition json_escape_char (c : ascii) : string :=
  if Ascii.eqb c dquote || Ascii.eqb c backslash then String backslash (chr c)
  else if (ord c =? 8)%N then "\b"
  else if (ord c =? 9)%N then "\t"
  else if (ord c =? 10)%N then "\n"
  else if (ord c =? 12)%N then "\f"
  else if (ord c =? 13)%N then "\r"
  else if ((32 <=? ord c) && (ord c <=? 126))%N then chr c
  else "\u00" ++ hex2 c.

Fixpoint json_escape (s : string) : string :=
  match s with
  | EmptyString => EmptyString
  | String c s' => json_escape_char c ++ json_escape s'
  end.

Definition json_string (s : string) : string :=
  chr dquote ++ json_escape s ++ chr dquote.

Definition newline_indent (level : nat) : string :=
  String newline (spaces (2 * level)).

Fixpoint dumps_at (level : nat) (v : json) : string :=
  match v with
  | JNull => "null"
  | JBool true => "true"
  | JBool false => "false"
  | JInt n => str_of_int n
  | JStr s => json_string s
  | JList [] => "[]"
  | JList l =>
      "[" ++ newline_indent (S level)
      ++ join ("," ++ newline_indent (S level)) (map (dumps_at (S level)) l)
      ++ newline_indent level ++ "]"
  | JObj [] => "{}"
  | JObj kv =>
      "{" ++ newline_indent (S level)
      ++ join ("," ++ newline_indent (S level))
           (map (fun p : string * json =>
                  (json_string (fst p) ++ ": " ++ dumps_at (S level) (snd p))%string) kv)
      ++ newline_indent level ++ "}"
  end.

Definition json_dumps_indent2 (v : json) : string := dumps_at 0 v.

(** *** [re.compile(pattern, re.IGNORECASE).search(text)] for a pattern of
    literal characters *)

Fixpoint match_here (pattern text : string) : bool :=
  match pattern, text with
  | EmptyString, _ => true
  | String _ _, EmptyString => false
  | String p pattern', String c text' =>
      Ascii.eqb (lower_char c) (lower_char p) && match_here pattern' text'
  end.

Fixpoint re_search_ignorecase (pattern text : string) : bool :=
  match_here pattern text
  || match text with
     | EmptyString => false
     | String _ text' => re_search_ignorecase pattern text'
     end.


(** ** The store file and the store monad *)

(** What the path [_HITL_STORE] holds, as [_read_store] meets it:
    nothing, a file that [open] or [json.load] fails on with the given
    exception ([open] raises [OSError]; text that is not JSON raises
    [JSONDecodeError]; bytes that are not text in the file's encoding raise
    [UnicodeDecodeError] from the read inside [json.load]), or a file
    holding a JSON document. *)
Inductive file_state : Type :=
| Absent
| Faulty (e : exn)
| Doc (v : json).

(** [write_error] is the exception [open(_HITL_STORE, "w")] raises, if the
    path cannot be written. *)
Record store : Type := MkStore {
  hitl_file : file_state;
  write_error : option exn
}.

Definition M (A : Type) : Type := store -> result A * store.

Definition ret {A : Type} (a : A) : M A := fun s => (Ok a, s).

Definition bind {A B : Type} (c : M A) (k : A -> M B) : M B :=
  fun s =>
    match c s with
    | (Ok a, s') => k a s'
    | (Raise e, s') => (Raise e, s')
    end.

Definition lift {A : Type} (r : result A) : M A := fun s => (r, s).

(** [try: c  except Exception as e: handler(e)] *)
Definition try_except {A : Type} (c : M A) (handler : exn -> M A) : M A :=
  fun s =>
    match c s with
    | (Ok a, s') => (Ok a, s')
    | (Raise e, s') => handler e s'
    end.

Declare Scope store_scope.
Delimit Scope store_scope with store.
Notation "x <- c ;; k" := (bind c (fun x => k))
  (at level 61, c at next level, right associativity) : store_scope.
Notation "c ;;; k" := (bind c (fun _ => k))
  (at level 61, right associativity) : store_scope.

(** [_HITL_STORE.exists()] *)
Definition path_exists (s : store) : bool :=
  match hitl_file s with
  | Absent => false
  | _ => true
  end.

(** [with open(_HITL_STORE, "r") as f: json.load(f)] *)
Definition open_and_load (s : store) : result json :=
  match hitl_file s with
  | Doc v => Ok v
  | Faulty e => Raise e
  | Absent => Raise (MkExn OSError "[Errno 2] No such file or directory")
  end.

(** [except (json.JSONDecodeError, OSError)] *)
Definition read_store_excepts (c : exn_class) : bool :=
  match c with
  | JSONDecodeError | OSError => true
  | _ => false
  end.

Definition _read_store : M json :=
  fun s =>
    let attempt : result (option json) :=
      if path_exists s
      then (v <~ open_and_load s ;; Ok (Some v))%res
      else Ok None in
    match attempt with
    | Ok (Some v) => (Ok v, s)
    | Ok None => (Ok (JList []), s)
    | Raise e =>
        if read_store_excepts (exn_cls e) then (Ok (JList []), s) else (Raise e, s)
    end.

(** [json.dump(data, f, indent=2)] into the file opened for writing.
    When [open] raises the file is left as it was.  Otherwise the file then
    holds the document [data] ([json.load] of what [json.dump] writes is the
    document written).  The documents of the embedding are those [json.dump]
    writes in full: a dump that raises after [open] has emptied the file
    (nesting beyond the interpreter's recursion limit) is not part of the
    embedding, and no property below speaks of the store such a failure
    leaves. *)
Definition _write_store (data : json) : M unit :=
  fun s =>
    match write_error s with
    | Some e => (Raise e, s)
    | None => (Ok tt, MkStore (Doc data) (write_error s))
    end.

Definition get_pending_approvals : M json := _read_store.

(** [[a for a in items if keep(a)]] *)
Fixpoint comprehension (keep : json -> result bool) (items : list json)
  : result (list json) :=
  match items with
  | [] => Ok []
  | a :: rest =>
      (b <~ keep a ;;
       kept <~ comprehension keep rest ;;
       Ok (if b then a :: kept else kept))%res
  end.

(** [not (a.get("execution_id") == execution_id and a.get("task_id") == task_id)] *)
Definition not_this_approval (execution_id task_id : json) (a : json) : result bool :=
  (x <~ dict_get a "execution_id" ;;
   if py_eq x execution_id
   then (y <~ dict_get a "task_id" ;; Ok (negb (py_eq y task_id)))
   else Ok true)%res.

Definition remove_approval (execution_id task_id : string) : M unit :=
  (stored <- _read_store ;;
   items <- lift (py_iter stored) ;;
   data <- lift (comprehension (not_this_approval (JStr execution_id) (JStr task_id)) items) ;;
   _write_store (JList data))%store.

(** ** The classifier *)

Definition _REVIEW_TASK_PATTERN : string := "review".

(** [a or b], where [b] is evaluated only when [a] is falsy. *)
Definition or_else (a : json) (b : result json) : result json :=
  if truthy a then Ok a else b.

Definition _is_review_task (body : json) : result bool :=
  (n <~ dict_get body "name" ;;
   name <~ or_else n (t <~ dict_get body "task_id" ;; Ok (py_or t (JStr ""))) ;;
   Ok (re_search_ignorecase _REVIEW_TASK_PATTERN (py_str name)))%res.

Definition no_output : string := "(No output in task webhook)".

Definition _extract_from_task_payload (body : json) : result (option json) :=
  (k <~ dict_get body "kickoff_id" ;;
   execution_id <~ or_else k (dict_get body "execution_id") ;;
   n <~ dict_get body "name" ;;
   task_id <~ or_else n (t <~ dict_get body "task_id" ;;
                         Ok (py_or t (JStr "request_review"))) ;;
   o <~ dict_get body "output" ;;
   content <~ or_else o (dict_get body "summary") ;;
   let content :=
     match content with
     | JObj _ => JStr (json_dumps_indent2 content)
     | _ => content
     end in
   let content := if truthy content then content else JStr no_output in
   if truthy execution_id
   then Ok (Some (JObj [("execution_id", execution_id);
                        ("task_id", JStr (py_str task_id));
                        ("content", content);
                        ("raw", body)]))
   else Ok None)%res.

(** ** The HTTP handlers *)

(** A Flask response: the JSON body and the status code. *)
Definition response : Type := json * Z.

(** [not (a.get("execution_id") == extracted["execution_id"]
          and a.get("task_id") == extracted["task_id"])] *)
Definition not_extracted (extracted a : json) : result bool :=
  (x <~ dict_get a "execution_id" ;;
   e <~ subscript extracted "execution_id" ;;
   if py_eq x e
   then (y <~ dict_get a "task_id" ;;
         t <~ subscript extracted "task_id" ;;
         Ok (negb (py_eq y t)))
   else Ok true)%res.

(** The storage step of [task]: read, drop the record with the same pair,
    append, write. *)
Definition upsert (extracted : json) : M unit :=
  (stored <- _read_store ;;
   items <- lift (py_iter stored) ;;
   data <- lift (comprehension (not_extracted extracted) items) ;;
   _write_store (JList (data ++ [extracted])))%store.

(** [request.get_json(force=True, silent=True)] : the parsed body, [None]
    when the body is not valid JSON. *)
Definition get_json (payload : option json) : json :=
  match payload with
  | Some v => v
  | None => JNull
  end.

Definition task_received : response :=
  (JObj [("ok", JBool true);
         ("message", JStr "Task received (not a review task, ignored)")], 200).

Definition task_stored : response :=
  (JObj [("ok", JBool true); ("message", JStr "Review task stored for approval")], 200).

Definition task_missing_id : response :=
  (JObj [("ok", JBool false); ("message", JStr "Missing kickoff_id")], 400).

Definition task_failed (e : exn) : response :=
  (JObj [("ok", JBool false); ("message", JStr (exn_msg e))], 500).

(** The body of the [try] in [task]. *)
Definition task_try (payload : option json) : M response :=
  (let body := py_or (get_json payload) (JObj []) in
   review <- lift (_is_review_task body) ;;
   if negb review then ret task_received
   else
     extracted <- lift (_extract_from_task_payload body) ;;
     match extracted with
     | Some record => upsert record ;;; ret task_stored
     | None => ret task_missing_id
     end)%store.

Definition task (payload : option json) : M response :=
  try_except (task_try payload) (fun e => ret (task_failed e)).

Definition acknowledged : response := (JObj [("ok", JBool true)], 200).

Definition step (payload : option json) : M response := ret acknowledged.

Definition crew (payload : option json) : M response := ret acknowledged.

Definition health : M response := ret (JObj [("status", JStr "ok")], 200).

(** ** Starting the listener *)

(** The handle kept in [_SERVER_THREAD]: the port its [_run_server] was
    given and what [is_alive()] answers at the time of the state.  A state
    is a moment: [after_app_run] below gives the later moment at which the
    thread has run [app.run]. *)
Record thread : Type := MkThread {
  thread_port : Z;
  is_alive : bool
}.

(** The environment variable [HITL_WEBHOOK_PORT]: unset, the text of an
    integer, or a text [int] rejects. *)
Inductive port_setting : Type :=
| PortUnset
| PortInt (n : Z)
| PortText (text : string).

(** The process and its host: the module global, the environment, the
    exception [Thread.start] raises when no thread can be created, and the
    ports other processes hold. *)
Record process : Type := MkProcess {
  _SERVER_THREAD : option thread;
  HITL_WEBHOOK_PORT : port_setting;
  start_error : option exn;
  bound_ports : list Z
}.

(** [int(os.getenv("HITL_WEBHOOK_PORT", "5050"))] *)
Definition env_port (p : process) : result Z :=
  match HITL_WEBHOOK_PORT p with
  | PortUnset => Ok 5050
  | PortInt n => Ok n
  | PortText text =>
      Raise (MkExn ValueError
               ("invalid literal for int() with base 10: " ++ repr_str text))
  end.

(** [port or int(os.getenv(...))] *)
Definition resolve_port (port : option Z) (p : process) : result Z :=
  match port with
  | Some n => if n =? 0 then env_port p else Ok n
  | None => env_port p
  end.

Definition set_thread (t : thread) (p : process) : process :=
  MkProcess (Some t) (HITL_WEBHOOK_PORT p) (start_error p) (bound_ports p).

Definition start_webhook_server (port : option Z) (p : process)
  : result bool * process :=
  let running :=
    match _SERVER_THREAD p with
    | Some t => is_alive t
    | None => false
    end in
  if running then (Ok true, p)
  else
    match resolve_port port p with
    | Raise e => (Raise e, p)
    | Ok port' =>
        match start_error p with
        | None => (Ok true, set_thread (MkThread port' true) p)
        | Some _ => (Ok false, set_thread (MkThread port' false) p)
        end
    end.

(** What becomes of the thread running [_run_server(port)]: [app.run]
    serves for as long as the process lives when it can bind the port, and
    ends the thread when the port is held by another process. *)
Definition port_in_use (port : Z) (p : process) : bool :=
  existsb (Z.eqb port) (bound_ports p).

Definition listening (p : process) : bool :=
  match _SERVER_THREAD p with
  | Some t => is_alive t && negb (port_in_use (thread_port t) p)
  | None => false
  end.


(** ** Sequences of store operations *)

Inductive op : Type :=
| Upsert (extracted : json)
| Remove (execution_id task_id : string).

Definition exec (o : op) : M unit :=
  match o with
  | Upsert extracted => upsert extracted
  | Remove execution_id task_id => remove_approval execution_id task_id
  end.

Fixpoint run (ops : list op) : M unit :=
  match ops with
  | [] => ret tt
  | o :: rest => (exec o ;;; run rest)%store
  end.

(** ** Notions the properties are stated with *)

(** [text] contains [marker] somewhere, letter case apart. *)
Definition contains_ci (marker text : string) : Prop :=
  exists pre post, lower text = (pre ++ lower marker ++ post)%string.

(** The name-like field of a payload: the name, else the task id, else the
    empty text. *)
Definition name_like (fields : list (string * json)) : json :=
  py_or (field "name" fields) (py_or (field "task_id" fields) (JStr "")).

(** The three values a payload yields, each with its fallback. *)
Definition derived_execution_id (fields : list (string * json)) : json :=
  py_or (field "kickoff_id" fields) (field "execution_id" fields).

Definition derived_task_id (fields : list (string * json)) : json :=
  py_or (field "name" fields)
        (py_or (field "task_id" fields) (JStr "request_review")).

Definition derived_output (fields : list (string * json)) : json :=
  py_or (field "output" fields) (field "summary" fields).

Definition is_dict (v : json) : bool :=
  match v with
  | JObj _ => true
  | _ => false
  end.

(** A pending approval as the store keeps it. *)
Definition approval (execution_id : json) (task_id : string) (content raw : json)
  : json :=
  JObj [("execution_id", execution_id); ("task_id", JStr task_id);
        ("content", content); ("raw", raw)].

(** What a read of the store returns, and the store an operation leaves. *)
Definition read_all (s : store) : result json := fst (get_pending_approvals s).

Definition store_after {A : Type} (c : M A) (s : store) : store := snd (c s).

(** The (execution_id, task_id) pair of a record whose two ids are texts. *)
Definition key_of (a : json) : option (string * string) :=
  match a with
  | JObj kv =>
      match field "execution_id" kv, field "task_id" kv with
      | JStr e, JStr t => Some (e, t)
      | _, _ => None
      end
  | _ => None
  end.

Definition keyed (a : json) : bool :=
  match key_of a with
  | Some _ => true
  | None => false
  end.

Definition key_eqb (k1 k2 : option (string * string)) : bool :=
  match k1, k2 with
  | Some (e1, t1), Some (e2, t2) => String.eqb e1 e2 && String.eqb t1 t2
  | None, None => true
  | _, _ => false
  end.

(** The record [a] has the pair ([execution_id], [task_id]). *)
Definition has_pair (execution_id task_id : string) (a : json) : bool :=
  match a with
  | JObj kv =>
      py_eq (field "execution_id" kv) (JStr execution_id)
      && py_eq (field "task_id" kv) (JStr task_id)
  | _ => false
  end.

(** The pair an operation is about. *)
Definition op_key (o : op) : option (string * string) :=
  match o with
  | Upsert extracted => key_of extracted
  | Remove execution_id task_id => Some (execution_id, task_id)
  end.

Definition op_ok (o : op) : bool :=
  match o with
  | Upsert extracted => keyed extracted
  | Remove _ _ => true
  end.

(** [r] was upserted and no later operation was about its pair. *)
Definition surviving (r : json) (ops : list op) : Prop :=
  exists before later,
    ops = before ++ Upsert r :: later
    /\ Forall (fun o => op_key o <> key_of r) later.

Definition empty_store (s : store) : Prop :=
  write_error s = None
  /\ (hitl_file s = Absent \/ hitl_file s = Doc (JList [])).

(** The store file cannot be read: it is there, and [open] or [json.load]
    fails on it. *)
Definition unreadable_or_malformed (s : store) : Prop :=
  exists e, hitl_file s = Faulty e.

(** The listener cannot be launched for [port]: no thread can be started,
    or another process holds the port. *)
Definition launch_fails (port : Z) (p : process) : Prop :=
  start_error p <> None \/ port_in_use port p = true.

Definition handle_alive (p : process) : bool :=
  match _SERVER_THREAD p with
  | Some t => is_alive t
  | None => false
  end.

(** The mapping [task] works on: the parsed body, or the empty mapping. *)
Definition request_body (payload : option json) : json :=
  py_or (get_json payload) (JObj []).

Definition status (r : response) : Z := snd r.

(** [_write_store(_read_store())] *)
Definition rewrite_store : M unit :=
  (data <- _read_store ;; _write_store data)%store.

(** A store file whose bytes are not text in the file's encoding. *)
Definition undecodable_store : store :=
  MkStore (Faulty (MkExn UnicodeDecodeError
                     "'utf-8' codec can't decode byte 0xff in position 0: invalid start byte"))
          None.

(** The store can be written and keeps the sequence [records] (a missing
    file keeping none). *)
Definition holds (s : store) (records : list json) : Prop :=
  write_error s = None
  /\ (hitl_file s = Doc (JList records)
      \/ (hitl_file s = Absent /\ records = [])).

(** The records other than those with the pair of [k]. *)
Definition without (k : option (string * string)) (records : list json)
  : list json :=
  filter (fun a => negb (key_eqb (key_of a) k)) records.

(** The items a loop over the stored document visits. *)
Definition items_of (s : store) : result (list json) :=
  rbind (read_all s) py_iter.

(** The records other than those with the pair ([execution_id], [task_id]). *)
Definition others (execution_id task_id : string) (records : list json)
  : list json :=
  filter (fun a => negb (has_pair execution_id task_id a)) records.

(** Some operation of [ops] is about the pair [k]. *)
Definition touched (k : option (string * string)) (ops : list op) : bool :=
  existsb (fun o => key_eqb (op_key o) k) ops.

(** The records upserted by [ops] whose pair no later operation is about,
    in the order of their upserts. *)
Fixpoint survivors (ops : list op) : list json :=
  match ops with
  | [] => []
  | Upsert r :: rest =>
      if touched (key_of r) rest then survivors rest else r :: survivors rest
  | Remove _ _ :: rest => survivors rest
  end.

(** A document a loop visits no item of, though it is not an array: the
    empty object and the empty text. *)
Definition visits_nothing (v : json) : bool :=
  match v with
  | JObj [] => true
  | JStr EmptyString => true
  | _ => false
  end.

Definition is_list (v : json) : bool :=
  match v with
  | JList _ => true
  | _ => false
  end.

(** The class of the exception a loop with [a.get] over a document that
    is not an array ends in. *)
Definition loop_error (v : json) : exn_class :=
  match v with
  | JObj _ | JStr _ => AttributeError
  | _ => TypeError
  end.

(** * main.py: the support email flow

    The agents, the crews and the flow engine are library code.  What a crew
    answers and what the human decides are inputs of the embedding, and so is
    [email.utils.parseaddr]; the flow's own methods are embedded on the flow
    state. *)

(** ** Text helpers *)

(** [c.isspace()] for a code point below 256; [\s] of [re] is the same
    set. *)
Definition is_space (c : ascii) : bool :=
  let n := ord c in
  ((9 <=? n) && (n <=? 13) || (28 <=? n) && (n <=? 32)
   || (n =? 133) || (n =? 160))%N.

Fixpoint lstrip (s : string) : string :=
  match s with
  | EmptyString => EmptyString
  | String c s' => if is_space c then lstrip s' else s
  end.

Fixpoint rstrip (s : string) : string :=
  match s with
  | EmptyString => EmptyString
  | String c s' =>
      match rstrip s' with
      | EmptyString => if is_space c then EmptyString else chr c
      | kept => String c kept
      end
  end.

(** [s.strip()] *)
Definition strip (s : string) : string := rstrip (lstrip s).

(** [needle in hay] *)
Fixpoint contains (needle hay : string) : bool :=
  String.prefix needle hay
  || match hay with
     | EmptyString => false
     | String _ hay' => contains needle hay'
     end.

(** [s[:n]] *)
Definition first_chars (n : nat) (s : string) : string := String.substring 0 n s.

(** [s[n:]] *)
Fixpoint drop_chars (n : nat) (s : string) : string :=
  match n, s with
  | O, _ => s
  | S n', String _ s' => drop_chars n' s'
  | S _, EmptyString => EmptyString
  end.

(** What [(.+)] takes at the end of a pattern: the characters up to the
    next line feed. *)
Fixpoint take_line (s : string) : string :=
  match s with
  | EmptyString => EmptyString
  | String c s' => if Ascii.eqb c newline then EmptyString else String c (take_line s')
  end.

(** [\s*(.+)] matched at the start of [text]: the group, when there is a
    match.  [\s*] takes as many characters as it can and gives them back
    one by one until [.] finds a character other than a line feed. *)
Fixpoint spaces_then_line (text : string) : option string :=
  match text with
  | EmptyString => None
  | String c rest =>
      if is_space c
      then match spaces_then_line rest with
           | Some group => Some group
           | None => if Ascii.eqb c newline then None else Some (take_line text)
           end
      else Some (take_line text)
  end.

(** [re.search(label + r"\s*(.+)", raw, re.IGNORECASE)] for a label of
    literal characters: [group(1)] of the first match, when there is one. *)
Fixpoint search_header (label raw : string) : option string :=
  match (if match_here label raw
         then spaces_then_line (drop_chars (String.length label) raw)
         else None) with
  | Some group => Some group
  | None =>
      match raw with
      | EmptyString => None
      | String _ raw' => search_header label raw'
      end
  end.

(** ** The flow state *)

Record SupportState : Type := MkSupportState {
  email_raw : string;
  original_sender : string;
  email_subject : string;
  draft : string;
  email_content : string
}.

Definition initial_state : SupportState :=
  MkSupportState EmptyString EmptyString EmptyString EmptyString EmptyString.

Definition nonempty (s : string) : bool := negb (String.eqb s EmptyString).

Definition no_support_email : string := "No support email to process.".

(** The outcome the human feedback step emits. *)
Inductive feedback : Type :=
| approved
| rejected.

(** The collaborators of a run: the answer of the fetch crew, the support
    crew, the human, the sending crew. *)
Record collaborators : Type := MkCollaborators {
  gmail_fetch : string;
  support_crew : string -> string;
  human : string -> feedback;
  gmail_send : string -> string
}.

(** The calls a run makes to its collaborators. *)
Inductive call : Type :=
| Fetch
| Support (content : string)
| Review (shown : string)
| Send (description : string).

Section SupportFlow.

(** [email.utils.parseaddr] *)
Variable parseaddr : string -> string * string.

Variable ext : collaborators.

Definition _extract_sender_from_raw (raw : string) : string :=
  match search_header "FROM:" raw with
  | None => EmptyString
  | Some group =>
      let addr := snd (parseaddr (strip group)) in
      if nonempty addr then addr else strip group
  end.

(** The test of [fetch_email] on the answer of the fetch crew. *)
Definition nothing_fetched (raw : string) : bool :=
  negb (nonempty raw)
  || contains "no " (first_chars 50 (lower raw))
  || contains "error" (first_chars 50 (lower raw)).

(** Each method gives its result, the state it leaves and the calls it
    makes. *)
Definition fetch_email (st : SupportState) : string * SupportState * list call :=
  let raw := gmail_fetch ext in
  if nothing_fetched raw
  then (raw,
        MkSupportState EmptyString (original_sender st) (email_subject st)
          (draft st) EmptyString,
        [Fetch])
  else
    (raw,
     MkSupportState raw (_extract_sender_from_raw raw)
       (match search_header "SUBJECT:" raw with
        | Some group => strip group
        | None => "Re: Support"
        end)
       (draft st) raw,
     [Fetch]).

Definition extract_and_search (st : SupportState)
  : string * SupportState * list call :=
  if negb (nonempty (email_content st)) then (no_support_email, st, [])
  else
    let answer := support_crew ext (email_content st) in
    (answer,
     MkSupportState (email_raw st) (original_sender st) (email_subject st)
       answer (email_content st),
     [Support (email_content st)]).

Definition check_has_draft (result : string) (st : SupportState) : string :=
  if negb (nonempty (draft st)) || String.eqb result no_support_email
  then "no_email"
  else "needs_review".

Definition request_review (st : SupportState) : string := draft st.

(** The description of the task [send_email] gives the Gmail agent. *)
Definition send_description (st : SupportState) : string :=
  "Send an email using gmail/send_email with:" ++ chr newline
  ++ "to: " ++ original_sender st ++ chr newline
  ++ "subject: " ++ ("Re: " ++ email_subject st) ++ chr newline
  ++ "body: " ++ draft st.

Definition cannot_send : string := "Cannot send: missing sender or draft.".

Definition send_email (st : SupportState) : string * list call :=
  if negb (nonempty (original_sender st)) || negb (nonempty (draft st))
  then (cannot_send, [])
  else (gmail_send ext (send_description st), [Send (send_description st)]).

Definition on_rejected : string := "Support reply rejected. No email sent.".

Definition on_no_email : string := "No support email found. Flow complete.".

(** ** The flow as the decorators wire it *)

(** [fetch_email] starts the flow; [extract_and_search] listens to it;
    [check_has_draft] routes its result; [request_review] listens to
    "needs_review" and emits the human's outcome; [send_email] listens to
    "approved", [on_rejected] to "rejected", [on_no_email] to "no_email".
    A run gives the result of the last method, the final state and the
    calls made, in their order. *)
Definition run_flow (st0 : SupportState) : string * SupportState * list call :=
  let '(_, st1, calls1) := fetch_email st0 in
  let '(result, st2, calls2) := extract_and_search st1 in
  if String.eqb (check_has_draft result st2) "needs_review"
  then
    let shown := request_review st2 in
    match human ext shown with
    | approved =>
        let '(sent, calls3) := send_email st2 in
        (sent, st2, calls1 ++ calls2 ++ [Review shown] ++ calls3)
    | rejected => (on_rejected, st2, calls1 ++ calls2 ++ [Review shown])
    end
  else (on_no_email, st2, calls1 ++ calls2).

End SupportFlow.

(** ** Notions the properties of the flow are stated with *)

Fixpoint all_space (s : string) : bool :=
  match s with
  | EmptyString => true
  | String c s' => is_space c && all_space s'
  end.

Definition one_line (s : string) : bool := negb (string_mem newline s).

(** [rest] is what follows the end of a line: nothing, or a line feed and
    more. *)
Definition line_end (rest : string) : bool :=
  match rest with
  | EmptyString => true
  | String c _ => Ascii.eqb c newline
  end.

Fixpoint last_char (s : string) : option ascii :=
  match s with
  | EmptyString => None
  | String c EmptyString => Some c
  | String _ s' => last_char s'
  end.

(** No white space at either end. *)
Definition trimmed (s : string) : bool :=
  match s with
  | EmptyString => true
  | String c _ =>
      negb (is_space c)
      && match last_char s with
         | Some d => negb (is_space d)
         | None => true
         end
  end.

(** An answer of the fetch crew in the format [fetch_email] asks for. *)
Definition formatted_email (subject sender body : string) : string :=
  "SUBJECT: " ++ subject ++ chr newline
  ++ "FROM: " ++ sender ++ chr newline
  ++ "BODY:" ++ chr newline ++ body.

(** The dict [a] has the ids [execution_id] and [task_id], in the sense of
    [==]. *)
Definition same_ids (execution_id task_id : json) (a : json) : bool :=
  match a with
  | JObj kv =>
      py_eq (field "execution_id" kv) execution_id
      && py_eq (field "task_id" kv) task_id
  | _ => false
  end.

(** ** The layout of indented JSON text *)

(** A text between double quotes. *)
Definition quoted (s : string) : string :=
  String dquote (s ++ String dquote EmptyString).

(** A character JSON text holds as it is: printable ASCII other than the
    double quote and the backslash. *)
Definition plain_char (c : ascii) : bool :=
  ((32 <=? ord c) && (ord c <=? 126) && negb (ord c =? 34) && negb (ord c =? 92))%N.

Fixpoint plain (s : string) : bool :=
  match s with
  | EmptyString => true
  | String c s' => plain_char c && plain s'
  end.

(** A mapping whose values are texts. *)
Definition flat_object (pairs : list (string * string)) : json :=
  JObj (map (fun p : string * string => (fst p, JStr (snd p))) pairs).

(** A mapping of plain texts written with an indent of two: the opening
    brace, each pair on a line of its own behind two spaces, key and value
    between double quotes and separated by a colon and a space, the lines
    separated by a comma, the closing brace on a line of its own. *)
Definition indented_object (pairs : list (string * string)) : string :=
  "{" ++ chr newline
  ++ join ("," ++ chr newline)
       (map (fun p : string * string =>
               ("  " ++ quoted (fst p) ++ ": " ++ quoted (snd p))%string) pairs)
  ++ chr newline ++ "}".

(** The payload of the serialization scenario and the text of its output:
    a mapping with a text, an array and a boolean. *)
Definition nested_output : json :=
  JObj [("subject", JStr "Hi"); ("tags", JList [JStr "a"; JInt 1]);
        ("ok", JBool true)].

Definition nested_payload : json :=
  JObj [("kickoff_id", JStr "abc123"); ("name", JStr "request_review");
        ("output", nested_output)].

Definition nested_output_text : string :=
  "{" ++ chr newline
  ++ "  " ++ quoted "subject" ++ ": " ++ quoted "Hi" ++ "," ++ chr newline
  ++ "  " ++ quoted "tags" ++ ": [" ++ chr newline
  ++ "    " ++ quoted "a" ++ "," ++ chr newline
  ++ "    1" ++ chr newline
  ++ "  ]," ++ chr newline
  ++ "  " ++ quoted "ok" ++ ": true" ++ chr newline
  ++ "}".

(** * Properties *)

(** The handler has answered, with one of its three status codes. *)
Ltac answered :=
  eexists; eexists; (split; [reflexivity |]); cbn; auto.

(** ** Text search *)

Lemma match_here_prefix (pattern text : string) :
  match_here pattern text = true
  <-> exists post, lower text = (lower pattern ++ post)%string.
Proof.
  revert text.
  induction pattern as [| p pattern IH]; intros text; simpl.
  - split; [intros _; now exists (lower text) | reflexivity].
  - destruct text as [| c text]; simpl.
    + split; [discriminate | intros [post H]; discriminate].
    + rewrite andb_true_iff, Ascii.eqb_eq, IH.
      split.
      * intros [Hc [post Hpost]]. exists post. now rewrite Hc, Hpost.
      * intros [post H]. injection H as Hc Hrest. split; [assumption | now exists post].
Qed.

Lemma re_search_ignorecase_contains (pattern text : string) :
  re_search_ignorecase pattern text = true <-> contains_ci pattern text.
Proof.
  unfold contains_ci.
  induction text as [| c text IH].
  - cbn [re_search_ignorecase]. rewrite orb_false_r, match_here_prefix.
    split.
    + intros [post H]. now exists EmptyString, post.
    + intros [pre [post H]]. destruct pre; [now exists post | discriminate].
  - cbn [re_search_ignorecase]. rewrite orb_true_iff, match_here_prefix, IH.
    split.
    + intros [[post H] | [pre [post H]]].
      * now exists EmptyString, post.
      * exists (String (lower_char c) pre), post. simpl. now rewrite H.
    + intros [pre [post H]]. destruct pre as [| d pre].
      * left. now exists post.
      * right. simpl in H. injection H as _ H. now exists pre, post.
Qed.

(** C4. For every payload mapping, [_is_review_task] returns a boolean, and
    it is true exactly when the name-like field (the name, else the task id,
    else the empty text), read as text, contains "review" somewhere, letter
    case apart; the three payloads of the classifier scenario are classified
    true, false and true. *)
Theorem is_review_task_iff_contains_review :
  (forall fields : list (string * json),
      exists b,
        _is_review_task (JObj fields) = Ok b
        /\ (b = true <-> contains_ci "review" (py_str (name_like fields))))
  /\ _is_review_task (JObj [("name", JStr "request_review")]) = Ok true
  /\ _is_review_task (JObj [("name", JStr "send_email")]) = Ok false
  /\ _is_review_task (JObj [("task_id", JStr "ReViEw_step")]) = Ok true.
Proof.
  split; [| repeat split; reflexivity].
  intros fields.
  exists (re_search_ignorecase "review" (py_str (name_like fields))).
  split.
  - unfold _is_review_task, name_like, py_or, or_else, dict_get. simpl.
    destruct (truthy (field "name" fields)); reflexivity.
  - apply re_search_ignorecase_contains.
Qed.

(** ** Extraction *)

(** What [_extract_from_task_payload] stores as content for the value [out]
    the two output fields yield. *)
Lemma extract_unfold (fields : list (string * json)) :
  _extract_from_task_payload (JObj fields)
  = let out := derived_output fields in
    let text := if is_dict out then JStr (json_dumps_indent2 out) else out in
    let content := if truthy text then text else JStr no_output in
    if truthy (derived_execution_id fields)
    then Ok (Some (approval (derived_execution_id fields)
                            (py_str (derived_task_id fields)) content (JObj fields)))
    else Ok None.
Proof.
  unfold _extract_from_task_payload, derived_output, derived_execution_id,
    derived_task_id, approval, py_or, or_else, dict_get.
  cbn [rbind].
  destruct (truthy (field "kickoff_id" fields));
    destruct (truthy (field "name" fields));
    destruct (truthy (field "output" fields)) eqn:Ho; cbn [rbind];
    match goal with
    | |- context [is_dict ?v] => destruct v; reflexivity
    end.
Qed.

Lemma dumps_dict_truthy (kv : list (string * json)) :
  truthy (JStr (json_dumps_indent2 (JObj kv))) = true.
Proof.
  destruct kv; reflexivity.
Qed.

(** A record extracted from a payload whose execution id is a text has
    texts for both ids. *)
Lemma extract_keyed (fields : list (string * json)) (r : json) (e : string) :
  _extract_from_task_payload (JObj fields) = Ok (Some r) ->
  derived_execution_id fields = JStr e ->
  key_of r = Some (e, py_str (derived_task_id fields)).
Proof.
  rewrite extract_unfold. cbv zeta. intros H He. rewrite He in H.
  destruct (truthy (JStr e)); [| discriminate].
  injection H as <-. reflexivity.
Qed.

Lemma append_assoc (a b c : string) : ((a ++ b) ++ c = a ++ b ++ c)%string.
Proof.
  induction a as [| x a IH]; [reflexivity |]. cbn [append]. now rewrite IH.
Qed.

(** *** The text [json.dumps(..., indent=2)] writes for a mapping of plain
    texts *)

Lemma json_escape_char_plain (c : ascii) :
  plain_char c = true -> json_escape_char c = chr c.
Proof.
  destruct c as [[] [] [] [] [] [] [] []]; intros H;
    try discriminate H; reflexivity.
Qed.

Lemma json_escape_plain (s : string) : plain s = true -> json_escape s = s.
Proof.
  induction s as [| c s IH]; [reflexivity |].
  cbn [plain]. intros H. apply andb_true_iff in H. destruct H as [Hc Hs].
  cbn [json_escape]. now rewrite (json_escape_char_plain c Hc), (IH Hs).
Qed.

Lemma json_string_plain (s : string) : plain s = true -> json_string s = quoted s.
Proof.
  intros H. unfold json_string, quoted. now rewrite (json_escape_plain s H).
Qed.

(** Lines joined behind a common indent. *)
Lemma join_indented (sep : string) (lines : list string) :
  lines <> [] ->
  ("  " ++ join (sep ++ "  ") lines)%string
  = join sep (map (fun line => ("  " ++ line)%string) lines).
Proof.
  induction lines as [| x lines IH]; [congruence |]. intros _.
  destruct lines as [| y lines]; [reflexivity |].
  change (join (sep ++ "  ") (x :: y :: lines))
    with (x ++ (sep ++ "  ") ++ join (sep ++ "  ") (y :: lines))%string.
  change (join sep (map (fun line => ("  " ++ line)%string) (x :: y :: lines)))
    with (("  " ++ x) ++ sep
          ++ join sep (map (fun line => ("  " ++ line)%string) (y :: lines)))%string.
  rewrite <- IH by discriminate.
  rewrite !append_assoc. reflexivity.
Qed.

Lemma dumps_flat_object (pairs : list (string * string)) :
  pairs <> [] ->
  forallb (fun p => plain (fst p) && plain (snd p)) pairs = true ->
  json_dumps_indent2 (flat_object pairs) = indented_object pairs.
Proof.
  intros Hne Hplain.
  assert (Hlines :
            map (fun p : string * json =>
                   (json_string (fst p) ++ ": " ++ dumps_at 1 (snd p))%string)
                (map (fun p : string * string => (fst p, JStr (snd p))) pairs)
            = map (fun p : string * string =>
                     (quoted (fst p) ++ ": " ++ quoted (snd p))%string) pairs).
  { rewrite map_map. apply map_ext_in. intros [k v] Hin.
    rewrite forallb_forall in Hplain. specialize (Hplain _ Hin).
    cbn [fst snd] in *. apply andb_true_iff in Hplain. destruct Hplain as [Hk Hv].
    cbn [dumps_at]. now rewrite (json_string_plain k Hk), (json_string_plain v Hv). }
  unfold json_dumps_indent2, flat_object, indented_object.
  destruct pairs as [| p pairs]; [congruence |].
  cbn [map dumps_at] in *. rewrite Hlines.
  set (line := fun p0 : string * string =>
                 (quoted (fst p0) ++ ": " ++ quoted (snd p0))%string).
  assert (Hindent :
            map (fun p0 : string * string =>
                   ("  " ++ quoted (fst p0) ++ ": " ++ quoted (snd p0))%string)
                (p :: pairs)
            = map (fun l => ("  " ++ l)%string) (map line (p :: pairs)))
    by (rewrite map_map; reflexivity).
  change ("{" ++ (chr newline ++ "  ")
          ++ join (("," ++ chr newline) ++ "  ") (map line (p :: pairs))
          ++ chr newline ++ "}"
          = "{" ++ chr newline
            ++ join ("," ++ chr newline)
                 (map (fun p0 : string * string =>
                         ("  " ++ quoted (fst p0) ++ ": " ++ quoted (snd p0))%string)
                      (p :: pairs))
            ++ chr newline ++ "}")%string.
  rewrite Hindent, <- join_indented by discriminate.
  rewrite !append_assoc. reflexivity.
Qed.

(** C3. For every payload mapping, extraction takes the execution id from
    [kickoff_id], else [execution_id]; the task id from [name], else
    [task_id], else "request_review"; the content from [output], else
    [summary], a dict being written as indented JSON text and a missing
    output being replaced by the placeholder.  It returns null exactly when
    no execution id is derived, and the record otherwise.  The indented text
    of a mapping of plain texts has each pair on its own line behind two
    spaces between the braces; the text of a mapping that holds an array is
    written out in the scenario.  The two payloads of the extraction
    scenario give the stated results. *)
Theorem extract_from_task_payload_spec :
  (forall fields : list (string * json),
      let e := derived_execution_id fields in
      let out := derived_output fields in
      (_extract_from_task_payload (JObj fields) = Ok None <-> truthy e = false)
      /\ (truthy e = true ->
          exists content,
            _extract_from_task_payload (JObj fields)
            = Ok (Some (approval e (py_str (derived_task_id fields)) content
                                 (JObj fields)))
            /\ (is_dict out = true -> content = JStr (json_dumps_indent2 out))
            /\ (is_dict out = false -> truthy out = false ->
                content = JStr no_output)
            /\ (is_dict out = false -> truthy out = true -> content = out))
      /\ (assoc "kickoff_id" fields = None ->
          assoc "execution_id" fields = None ->
          _extract_from_task_payload (JObj fields) = Ok None)
      /\ (forall pairs : list (string * string),
             truthy e = true ->
             out = flat_object pairs ->
             pairs <> [] ->
             forallb (fun p => plain (fst p) && plain (snd p)) pairs = true ->
             _extract_from_task_payload (JObj fields)
             = Ok (Some (approval e (py_str (derived_task_id fields))
                           (JStr (indented_object pairs)) (JObj fields)))))
  /\ _extract_from_task_payload
       (JObj [("kickoff_id", JStr "abc123"); ("name", JStr "request_review");
              ("output", JStr "Draft text")])
     = Ok (Some (approval (JStr "abc123") "request_review" (JStr "Draft text")
                   (JObj [("kickoff_id", JStr "abc123");
                          ("name", JStr "request_review");
                          ("output", JStr "Draft text")])))
  /\ _extract_from_task_payload nested_payload
     = Ok (Some (approval (JStr "abc123") "request_review"
                   (JStr nested_output_text) nested_payload)).
Proof.
  split; [| split; reflexivity].
  intros fields e out. rewrite extract_unfold. fold e out. cbv zeta.
  split; [| split; [| split]].
  - destruct (truthy e); split; congruence.
  - intros He. rewrite He.
    destruct (is_dict out) eqn:Hd.
    + destruct out; try discriminate. rewrite dumps_dict_truthy.
      eexists. split; [reflexivity |]. repeat split; congruence.
    + destruct (truthy out) eqn:Ht.
      * eexists. split; [reflexivity |]. repeat split; congruence.
      * eexists. split; [reflexivity |]. repeat split; congruence.
  - intros Hk Hx. subst e. unfold derived_execution_id, py_or, field.
    rewrite Hk, Hx. reflexivity.
  - intros pairs He Hout Hne Hplain. rewrite He, Hout.
    change (is_dict (flat_object pairs)) with true. cbv iota.
    rewrite (dumps_flat_object pairs Hne Hplain).
    destruct pairs as [| p pairs]; [congruence | reflexivity].
Qed.

Lemma extract_from_task_payload_spec_witness :
  _extract_from_task_payload
    (JObj [("execution_id", JInt 7);
           ("summary", flat_object [("to", "ann@x.org"); ("text", "Dear Ann")])])
  = Ok (Some (approval (JInt 7) "request_review"
                (JStr ("{" ++ chr newline
                       ++ "  " ++ quoted "to" ++ ": " ++ quoted "ann@x.org" ++ ","
                       ++ chr newline
                       ++ "  " ++ quoted "text" ++ ": " ++ quoted "Dear Ann"
                       ++ chr newline ++ "}"))
                (JObj [("execution_id", JInt 7);
                       ("summary",
                        flat_object [("to", "ann@x.org"); ("text", "Dear Ann")])]))).
Proof.
  destruct (proj1 extract_from_task_payload_spec
              [("execution_id", JInt 7);
               ("summary", flat_object [("to", "ann@x.org"); ("text", "Dear Ann")])])
    as [_ [_ [_ H]]].
  apply (H [("to", "ann@x.org"); ("text", "Dear Ann")]); try reflexivity.
  discriminate.
Defined.

(** ** The store monad *)

Lemma bind_ok {A B : Type} (c : M A) (k : A -> M B) (s s' : store) (a : A) :
  c s = (Ok a, s') -> bind c k s = k a s'.
Proof.
  intros H. unfold bind. now rewrite H.
Qed.

Lemma bind_raise {A B : Type} (c : M A) (k : A -> M B) (s s' : store) (e : exn) :
  c s = (Raise e, s') -> bind c k s = (Raise e, s').
Proof.
  intros H. unfold bind. now rewrite H.
Qed.

Lemma read_store_frame (s : store) : snd (_read_store s) = s.
Proof.
  unfold _read_store.
  destruct (path_exists s); [| reflexivity].
  destruct (open_and_load s) as [v | e]; cbn [rbind]; [reflexivity |].
  destruct (read_store_excepts (exn_cls e)); reflexivity.
Qed.

Lemma write_store_raise (data : json) (s s' : store) (e : exn) :
  _write_store data s = (Raise e, s') -> s' = s.
Proof.
  unfold _write_store. destruct (write_error s); intros H; now inversion H.
Qed.

(** A store operation built as read, iterate, filter, write leaves the store
    as it was when it raises. *)
Lemma read_filter_write_raise
      (keep : json -> result bool) (final : list json -> json)
      (s s' : store) (e : exn) :
  (stored <- _read_store ;;
   items <- lift (py_iter stored) ;;
   data <- lift (comprehension keep items) ;;
   _write_store (final data))%store s = (Raise e, s') ->
  s' = s.
Proof.
  unfold bind, lift.
  pose proof (read_store_frame s) as Hs.
  destruct (_read_store s) as [[v | e0] s0]; simpl in Hs; subst s0.
  - destruct (py_iter v) as [items | e1]; [| intros H; now inversion H].
    destruct (comprehension keep items) as [data | e2]; [| intros H; now inversion H].
    apply write_store_raise.
  - intros H; now inversion H.
Qed.

Lemma upsert_raise (r : json) (s s' : store) (e : exn) :
  upsert r s = (Raise e, s') -> s' = s.
Proof.
  apply (read_filter_write_raise (not_extracted r) (fun data => JList (data ++ [r]))).
Qed.

Lemma remove_approval_raise (execution_id task_id : string) (s s' : store) (e : exn) :
  remove_approval execution_id task_id s = (Raise e, s') -> s' = s.
Proof.
  apply (read_filter_write_raise
           (not_this_approval (JStr execution_id) (JStr task_id)) JList).
Qed.

(** ** The task handler *)

Lemma task_unfold (payload : option json) (s : store) :
  task payload s
  = match _is_review_task (request_body payload) with
    | Raise e => (Ok (task_failed e), s)
    | Ok false => (Ok task_received, s)
    | Ok true =>
        match _extract_from_task_payload (request_body payload) with
        | Raise e => (Ok (task_failed e), s)
        | Ok None => (Ok task_missing_id, s)
        | Ok (Some r) =>
            match upsert r s with
            | (Ok _, s') => (Ok task_stored, s')
            | (Raise e, s') => (Ok (task_failed e), s')
            end
        end
    end.
Proof.
  unfold task, try_except, task_try, request_body, bind, lift, ret.
  destruct (_is_review_task (py_or (get_json payload) (JObj []))) as [[|] | e];
    cbn; try reflexivity.
  destruct (_extract_from_task_payload (py_or (get_json payload) (JObj [])))
    as [[r |] | e]; cbn; try reflexivity.
  destruct (upsert r s) as [[u | e] s']; reflexivity.
Qed.

(** ** Reading the store *)

Lemma read_store_excepts_iff (c : exn_class) :
  read_store_excepts c = true <-> c = JSONDecodeError \/ c = OSError.
Proof.
  destruct c; cbn; split; intros H; try discriminate; auto;
    destruct H; discriminate.
Qed.

Lemma read_store_cases (s : store) :
  _read_store s
  = match hitl_file s with
    | Absent => (Ok (JList []), s)
    | Faulty e =>
        if read_store_excepts (exn_cls e) then (Ok (JList []), s) else (Raise e, s)
    | Doc v => (Ok v, s)
    end.
Proof.
  unfold _read_store, path_exists, open_and_load.
  destruct (hitl_file s); reflexivity.
Qed.

(** C5, as the code has it.  [_read_store] returns the empty sequence when
    the store file does not exist, and when the file exists and reading it
    raises [OSError] or [JSONDecodeError]; an exception of another class
    raised while reading it is passed on to the caller. *)
Theorem read_store_masks_oserror_and_jsondecodeerror :
  forall s : store,
    (hitl_file s = Absent
     \/ (exists e, hitl_file s = Faulty e
                   /\ (exn_cls e = JSONDecodeError \/ exn_cls e = OSError)) ->
     _read_store s = (Ok (JList []), s))
    /\ (forall e, hitl_file s = Faulty e ->
                  exn_cls e <> JSONDecodeError -> exn_cls e <> OSError ->
                  _read_store s = (Raise e, s)).
Proof.
  intros s. rewrite read_store_cases. split.
  - intros [H | [e [H Hc]]]; rewrite H; [reflexivity |].
    apply read_store_excepts_iff in Hc. now rewrite Hc.
  - intros e H Hj Ho. rewrite H.
    destruct (read_store_excepts (exn_cls e)) eqn:Hc; [| reflexivity].
    apply read_store_excepts_iff in Hc. tauto.
Qed.

Lemma read_store_masks_witness :
  _read_store (MkStore (Faulty (MkExn JSONDecodeError "Expecting value: line 1 column 1 (char 0)")) None)
  = (Ok (JList []),
     MkStore (Faulty (MkExn JSONDecodeError "Expecting value: line 1 column 1 (char 0)")) None).
Proof.
  apply (proj1 (read_store_masks_oserror_and_jsondecodeerror
                  (MkStore (Faulty (MkExn JSONDecodeError
                                      "Expecting value: line 1 column 1 (char 0)")) None))).
  right. eexists. split; [reflexivity | left; reflexivity].
Defined.

(** C5 as stated fails: a store file that exists and whose contents are not
    even text makes [_read_store] raise instead of returning the empty
    sequence. *)
Lemma read_store_raises_on_undecodable_file :
  ~ (forall s : store,
        hitl_file s = Absent \/ unreadable_or_malformed s ->
        read_all s = Ok (JList [])).
Proof.
  intros H.
  specialize (H undecodable_store).
  assert (Hs : hitl_file undecodable_store = Absent
               \/ unreadable_or_malformed undecodable_store).
  { right. eexists. reflexivity. }
  specialize (H Hs). discriminate H.
Qed.

(** C10. [_read_store] does not check the shape of what the file holds: a
    file holding any JSON document yields that document as it is, be it an
    object or a string; and when the file holds no document, the empty
    sequence is returned only for a missing file, a JSON parse failure or an
    OS-level error. *)
Theorem read_store_returns_document_unchecked :
  (forall (s : store) (v : json),
      hitl_file s = Doc v -> get_pending_approvals s = (Ok v, s))
  /\ read_all (MkStore (Doc (JObj [("execution_id", JStr "k1")])) None)
     = Ok (JObj [("execution_id", JStr "k1")])
  /\ read_all (MkStore (Doc (JStr "pending")) None) = Ok (JStr "pending")
  /\ (forall s : store,
         (forall v, hitl_file s <> Doc v) ->
         (read_all s = Ok (JList [])
          <-> hitl_file s = Absent
              \/ exists e, hitl_file s = Faulty e
                           /\ (exn_cls e = JSONDecodeError \/ exn_cls e = OSError))).
Proof.
  split; [| split; [reflexivity | split; [reflexivity |]]].
  - intros s v H. unfold get_pending_approvals. rewrite read_store_cases, H.
    reflexivity.
  - intros s Hdoc. unfold read_all, get_pending_approvals.
    rewrite read_store_cases.
    destruct (hitl_file s) as [| e | v] eqn:Hf.
    + split; [now left | reflexivity].
    + destruct (read_store_excepts (exn_cls e)) eqn:Hc; cbn.
      * split; [| reflexivity]. intros _. right. exists e.
        split; [reflexivity | now apply read_store_excepts_iff].
      * split; [discriminate |].
        intros [H | [e' [H Hc']]]; [discriminate |].
        injection H as <-. apply read_store_excepts_iff in Hc'. congruence.
    + now destruct (Hdoc v).
Qed.

Lemma read_store_returns_document_unchecked_witness :
  get_pending_approvals (MkStore (Doc (JInt 5)) None)
  = (Ok (JInt 5), MkStore (Doc (JInt 5)) None).
Proof.
  apply (proj1 read_store_returns_document_unchecked). reflexivity.
Defined.

(** C8. Writing back what was read leaves the contents of the store as
    they were, whatever the store file held: a read after
    [_write_store(_read_store())] returns what a read before it returned;
    and when that write goes through, the file holds the value read. *)
Theorem write_read_roundtrip :
  forall s : store,
    read_all (store_after rewrite_store s) = read_all s
    /\ (forall v, read_all s = Ok v -> write_error s = None ->
                  hitl_file (store_after rewrite_store s) = Doc v).
Proof.
  intros [f w].
  unfold read_all, store_after, rewrite_store, get_pending_approvals, bind,
    _read_store, _write_store, path_exists, open_and_load.
  cbn [hitl_file write_error].
  destruct f as [| e | v]; cbn [rbind].
  - destruct w; cbn; split; try reflexivity;
      intros v Hv Hw; try discriminate; now inversion Hv.
  - destruct (read_store_excepts (exn_cls e)) eqn:Hc.
    + destruct w; cbn; rewrite ?Hc; cbn; split; try reflexivity;
        intros v Hv Hw; try discriminate; now inversion Hv.
    + cbn. rewrite Hc. cbn. split; [reflexivity | intros v Hv; discriminate].
  - destruct w; cbn; split; try reflexivity;
      intros v' Hv Hw; try discriminate; now inversion Hv.
Qed.

Lemma write_read_roundtrip_witness :
  hitl_file (store_after rewrite_store (MkStore Absent None)) = Doc (JList []).
Proof.
  apply (proj2 (write_read_roundtrip (MkStore Absent None)));
    reflexivity.
Defined.

(** C9. [POST /step] and [POST /crew] answer every body with status 200 and
    [{"ok": true}], and leave the store as it was; their answer does not
    depend on the store. *)
Theorem step_and_crew_acknowledge :
  forall (payload : option json) (s : store),
    step payload s = (Ok (JObj [("ok", JBool true)], 200), s)
    /\ crew payload s = (Ok (JObj [("ok", JBool true)], 200), s)
    /\ store_after (step payload) s = s
    /\ store_after (crew payload) s = s
    /\ (forall s2, fst (step payload s2) = fst (step payload s)
                   /\ fst (crew payload s2) = fst (crew payload s)).
Proof.
  intros payload s. repeat split.
Qed.

(** ** Filtering the stored records *)

Lemma key_eqb_eq (k1 k2 : option (string * string)) :
  key_eqb k1 k2 = true <-> k1 = k2.
Proof.
  destruct k1 as [[e1 t1] |], k2 as [[e2 t2] |]; cbn;
    try (split; [discriminate | intros H; discriminate]);
    try (split; reflexivity).
  rewrite andb_true_iff, !String.eqb_eq.
  split; [intros [-> ->]; reflexivity | intros H; now inversion H].
Qed.

Lemma key_eqb_neq (k1 k2 : option (string * string)) :
  negb (key_eqb k1 k2) = true <-> k1 <> k2.
Proof.
  rewrite negb_true_iff, <- not_true_iff_false, key_eqb_eq. reflexivity.
Qed.

Lemma keyed_inv (a : json) :
  keyed a = true ->
  exists kv e t,
    a = JObj kv /\ field "execution_id" kv = JStr e /\ field "task_id" kv = JStr t
    /\ key_of a = Some (e, t).
Proof.
  unfold keyed, key_of.
  destruct a as [| | | | | kv]; try discriminate.
  destruct (field "execution_id" kv) as [| | | e | |] eqn:He; try discriminate.
  destruct (field "task_id" kv) as [| | | t | |] eqn:Ht; try discriminate.
  intros _. now exists kv, e, t.
Qed.

Lemma subscript_field (kv : list (string * json)) (k : string) (s : string) :
  field k kv = JStr s -> subscript (JObj kv) k = Ok (JStr s).
Proof.
  unfold field, subscript. destruct (assoc k kv); [congruence | discriminate].
Qed.

Lemma not_this_approval_dict (e t : string) (kv : list (string * json)) :
  not_this_approval (JStr e) (JStr t) (JObj kv) = Ok (negb (has_pair e t (JObj kv))).
Proof.
  unfold not_this_approval, has_pair, dict_get. cbn [rbind].
  destruct (py_eq (field "execution_id" kv) (JStr e)); reflexivity.
Qed.

Lemma not_this_approval_keyed (e t : string) (a : json) :
  keyed a = true ->
  not_this_approval (JStr e) (JStr t) a
  = Ok (negb (key_eqb (key_of a) (Some (e, t)))).
Proof.
  intros Ha. destruct (keyed_inv a Ha) as [kv [ea [ta [-> [He [Ht Hk]]]]]].
  rewrite Hk. unfold not_this_approval, dict_get. cbn [rbind].
  rewrite He, Ht. cbn [py_eq key_eqb].
  destruct (String.eqb ea e); reflexivity.
Qed.

Lemma not_extracted_keyed (r a : json) :
  keyed r = true -> keyed a = true ->
  not_extracted r a = Ok (negb (key_eqb (key_of a) (key_of r))).
Proof.
  intros Hr Ha.
  destruct (keyed_inv a Ha) as [kv [ea [ta [-> [He [Ht Hk]]]]]].
  destruct (keyed_inv r Hr) as [kr [er [tr [-> [Her [Htr Hkr]]]]]].
  rewrite Hk, Hkr. unfold not_extracted, dict_get. cbn [rbind].
  rewrite (subscript_field _ _ _ Her). cbn [rbind].
  rewrite He. cbn [py_eq key_eqb].
  destruct (String.eqb ea er); [| reflexivity].
  cbn [rbind]. rewrite (subscript_field _ _ _ Htr). cbn [rbind].
  rewrite Ht. reflexivity.
Qed.

Section Comprehension.

Variable keep : json -> result bool.

Lemma comprehension_filter (pred : json -> bool) (items : list json) :
  Forall (fun a => keep a = Ok (pred a)) items ->
  comprehension keep items = Ok (filter pred items).
Proof.
  induction 1 as [| a items Ha _ IH]; [reflexivity |].
  cbn [comprehension filter]. rewrite Ha, IH. cbn [rbind].
  destruct (pred a); reflexivity.
Qed.

Lemma comprehension_keeps_all (items : list json) :
  Forall (fun a => keep a = Ok true \/ exists e, keep a = Raise e) items ->
  comprehension keep items = Ok items
  \/ exists e, comprehension keep items = Raise e.
Proof.
  induction 1 as [| a items Ha _ IH]; [now left |].
  cbn [comprehension].
  destruct Ha as [Ha | [e Ha]]; rewrite Ha; cbn [rbind]; [| right; now exists e].
  destruct IH as [IH | [e IH]]; rewrite IH; cbn [rbind];
    [now left | right; now exists e].
Qed.

End Comprehension.

Lemma read_all_frame (s : store) (v : json) :
  read_all s = Ok v -> _read_store s = (Ok v, s).
Proof.
  unfold read_all, get_pending_approvals. intros H.
  pose proof (read_store_frame s) as Hs.
  destruct (_read_store s) as [r s0]. cbn in H, Hs. now subst.
Qed.

(** C7. Removing a pair no stored record has leaves the contents of the
    store as they were: for every store whose read gives a sequence of
    records and every pair (e, t) that none of the records has, a read after
    [remove_approval(e, t)] gives the same sequence, and a store file that
    held the sequence is left exactly as it was. *)
Theorem remove_approval_absent_pair :
  forall (s : store) (e t : string) (records : list json),
    read_all s = Ok (JList records) ->
    Forall (fun a => has_pair e t a = false) records ->
    read_all (store_after (remove_approval e t) s) = Ok (JList records)
    /\ (hitl_file s = Doc (JList records) ->
        store_after (remove_approval e t) s = s).
Proof.
  intros s e t records Hread Hnone.
  assert (Hkeep : comprehension (not_this_approval (JStr e) (JStr t)) records
                  = Ok records
                  \/ exists x, comprehension (not_this_approval (JStr e) (JStr t)) records
                               = Raise x).
  { apply comprehension_keeps_all.
    apply Forall_forall. intros a Ha.
    rewrite Forall_forall in Hnone. specialize (Hnone a Ha).
    destruct a as [| | | | | kv];
      try (right; eexists; reflexivity).
    left. rewrite not_this_approval_dict, Hnone. reflexivity. }
  unfold store_after, remove_approval, bind, lift.
  rewrite (read_all_frame _ _ Hread). cbn [py_iter].
  destruct Hkeep as [Hkeep | [x Hkeep]]; rewrite Hkeep.
  - unfold _write_store. destruct (write_error s) eqn:Hw; cbn [snd].
    + split; [assumption | reflexivity].
    + split; [reflexivity |].
      intros Hf. destruct s as [f w]. cbn in Hf, Hw |- *. now subst.
  - cbn [snd]. split; [assumption | reflexivity].
Qed.

Lemma remove_approval_absent_pair_witness :
  let s := MkStore (Doc (JList [approval (JStr "k1") "request_review" (JStr "Hi") JNull;
                               approval (JStr "k2") "peer_review" (JStr "Yo") JNull]))
                   None in
  read_all (store_after (remove_approval "k1" "peer_review") s) = read_all s
  /\ store_after (remove_approval "k1" "peer_review") s = s.
Proof.
  cbv zeta.
  pose proof (remove_approval_absent_pair
                (MkStore (Doc (JList [approval (JStr "k1") "request_review" (JStr "Hi") JNull;
                                      approval (JStr "k2") "peer_review" (JStr "Yo") JNull]))
                         None)
                "k1" "peer_review" _ eq_refl) as H.
  destruct H as [H1 H2].
  - repeat constructor.
  - split; [exact H1 | exact (H2 eq_refl)].
Defined.

(** ** Sequences of upserts and removals *)

Lemma holds_read (s : store) (records : list json) :
  holds s records -> _read_store s = (Ok (JList records), s).
Proof.
  intros [_ [H | [H ->]]]; rewrite read_store_cases, H; reflexivity.
Qed.

Lemma holds_write (s : store) (records data : list json) :
  holds s records ->
  exists s', _write_store (JList data) s = (Ok tt, s') /\ holds s' data.
Proof.
  intros [Hw _]. unfold _write_store. rewrite Hw.
  eexists. split; [reflexivity |]. split; [reflexivity | now left].
Qed.

Lemma upsert_holds (s : store) (records : list json) (r : json) :
  holds s records ->
  Forall (fun a => keyed a = true) records ->
  keyed r = true ->
  exists s', upsert r s = (Ok tt, s')
             /\ holds s' (without (key_of r) records ++ [r]).
Proof.
  intros Hs Hrecs Hr.
  unfold upsert, bind, lift. rewrite (holds_read _ _ Hs). cbn [py_iter].
  rewrite (comprehension_filter _ (fun a => negb (key_eqb (key_of a) (key_of r)))).
  - apply (holds_write _ _ _ Hs).
  - apply Forall_forall. intros a Ha. rewrite Forall_forall in Hrecs.
    apply not_extracted_keyed; auto.
Qed.

Lemma remove_holds (s : store) (records : list json) (e t : string) :
  holds s records ->
  Forall (fun a => keyed a = true) records ->
  exists s', remove_approval e t s = (Ok tt, s')
             /\ holds s' (without (Some (e, t)) records).
Proof.
  intros Hs Hrecs.
  unfold remove_approval, bind, lift. rewrite (holds_read _ _ Hs). cbn [py_iter].
  rewrite (comprehension_filter _ (fun a => negb (key_eqb (key_of a) (Some (e, t))))).
  - apply (holds_write _ _ _ Hs).
  - apply Forall_forall. intros a Ha. rewrite Forall_forall in Hrecs.
    apply not_this_approval_keyed; auto.
Qed.

Lemma run_snoc (ops : list op) (o : op) (s : store) :
  run (ops ++ [o]) s
  = match run ops s with
    | (Ok _, s') => exec o s'
    | (Raise e, s') => (Raise e, s')
    end.
Proof.
  revert s. induction ops as [| o' ops IH]; intros s.
  - cbn. unfold bind, ret. destruct (exec o s) as [[[] | e] s']; reflexivity.
  - change (run ((o' :: ops) ++ [o]) s)
      with (bind (exec o') (fun _ => run (ops ++ [o])) s).
    change (run (o' :: ops) s) with (bind (exec o') (fun _ => run ops) s).
    unfold bind.
    destruct (exec o' s) as [[u | e] s1]; [apply IH | reflexivity].
Qed.

Lemma in_without (k : option (string * string)) (records : list json) (r : json) :
  In r (without k records) <-> In r records /\ key_of r <> k.
Proof.
  unfold without. rewrite filter_In, key_eqb_neq. reflexivity.
Qed.

Lemma without_keyed (k : option (string * string)) (records : list json) :
  Forall (fun a => keyed a = true) records ->
  Forall (fun a => keyed a = true) (without k records).
Proof.
  rewrite !Forall_forall. intros H a Ha. apply in_without in Ha. apply H, Ha.
Qed.

Lemma without_nodup (k : option (string * string)) (records : list json) :
  NoDup (map key_of records) -> NoDup (map key_of (without k records)).
Proof.
  induction records as [| a records IH]; cbn; [trivial |].
  intros H. inversion H as [| ? ? Hnotin Hrest]; subst.
  destruct (negb (key_eqb (key_of a) k)); [| now apply IH].
  cbn. constructor; [| now apply IH].
  intros Hin. apply Hnotin.
  apply in_map_iff in Hin. destruct Hin as [b [Hb Hin]].
  apply in_without in Hin. apply in_map_iff. exists b. tauto.
Qed.

Lemma without_misses (k : option (string * string)) (records : list json) :
  ~ In k (map key_of (without k records)).
Proof.
  intros Hin. apply in_map_iff in Hin. destruct Hin as [b [Hb Hin]].
  apply in_without in Hin. tauto.
Qed.

Lemma nodup_snoc {A : Type} (l : list A) (x : A) :
  NoDup l -> ~ In x l -> NoDup (l ++ [x]).
Proof.
  induction l as [| y l IH]; cbn; intros Hl Hx.
  - constructor; [intros [] | constructor].
  - inversion Hl as [| ? ? Hy Hl']; subst. constructor.
    + rewrite in_app_iff. cbn. intros [H | [H | []]]; [auto | subst; auto].
    + apply IH; auto.
Qed.

Lemma surviving_snoc (r : json) (ops : list op) (o : op) :
  surviving r (ops ++ [o])
  <-> o = Upsert r \/ (surviving r ops /\ op_key o <> key_of r).
Proof.
  unfold surviving. split.
  - intros [before [later [Heq Hlater]]].
    destruct (exists_last (l := Upsert r :: later)) as [front [o' Hlast]];
      [discriminate |].
    destruct later as [| l1 later].
    + left. apply app_inj_tail in Heq. tauto.
    + right.
      destruct (exists_last (l := l1 :: later)) as [mid [o'' Hmid]];
        [discriminate |].
      rewrite Hmid in Heq, Hlater.
      change (before ++ Upsert r :: mid ++ [o''])
        with (before ++ (Upsert r :: mid) ++ [o'']) in Heq.
      rewrite app_assoc in Heq. apply app_inj_tail in Heq.
      destruct Heq as [Hops <-].
      apply Forall_app in Hlater. destruct Hlater as [Hmid' Ho].
      split; [now exists before, mid | now inversion Ho].
  - intros [-> | [[before [later [-> Hlater]]] Ho]].
    + exists ops, []. split; [reflexivity | constructor].
    + exists before, (later ++ [o]). split.
      * now rewrite <- app_assoc.
      * apply Forall_app. split; [assumption | now constructor].
Qed.

Lemma surviving_nil (r : json) : ~ surviving r [].
Proof.
  intros [before [later [H _]]]. destruct before; discriminate.
Qed.

(** The invariant of a run from an empty store. *)
Lemma run_invariant (ops : list op) (s0 : store) :
  empty_store s0 ->
  forallb op_ok ops = true ->
  exists s records,
    run ops s0 = (Ok tt, s)
    /\ holds s records
    /\ Forall (fun a => keyed a = true) records
    /\ NoDup (map key_of records)
    /\ (forall r, In r records <-> surviving r ops).
Proof.
  intros [Hw Hempty] Hok.
  induction ops as [| o ops IH] using rev_ind.
  - exists s0, []. split; [reflexivity |].
    split; [split; [exact Hw | destruct Hempty; [right | left]; auto] |].
    split; [constructor |]. split; [constructor |].
    intros r. split; [intros [] | intros H; now apply surviving_nil in H].
  - rewrite forallb_app in Hok. apply andb_true_iff in Hok.
    destruct Hok as [Hops Ho]. cbn in Ho. rewrite andb_true_r in Ho.
    destruct (IH Hops) as [s [records [Hrun [Hs [Hkeyed [Hnd Hin]]]]]].
    rewrite run_snoc, Hrun.
    destruct o as [r | e t]; cbn [exec op_ok] in *.
    + destruct (upsert_holds _ _ _ Hs Hkeyed Ho) as [s' [Hup Hs']].
      exists s', (without (key_of r) records ++ [r]).
      split; [assumption |]. split; [assumption |].
      split; [| split].
      * apply Forall_app. split; [now apply without_keyed | now constructor].
      * rewrite map_app. cbn. apply nodup_snoc.
        -- now apply without_nodup.
        -- apply without_misses.
      * intros r'. rewrite in_app_iff, in_without, surviving_snoc, Hin. cbn.
        split.
        -- intros [[H1 H2] | [H | []]]; [right | left; now subst].
           split; [assumption | congruence].
        -- intros [H | [H1 H2]]; [right; left; congruence | left].
           split; [assumption | congruence].
    + destruct (remove_holds _ _ e t Hs Hkeyed) as [s' [Hrm Hs']].
      exists s', (without (Some (e, t)) records).
      split; [assumption |]. split; [assumption |].
      split; [| split].
      * now apply without_keyed.
      * now apply without_nodup.
      * intros r'. rewrite in_without, surviving_snoc, Hin. cbn.
        split.
        -- intros [H1 H2]. right. split; [assumption | congruence].
        -- intros [H | [H1 H2]]; [discriminate |].
           split; [assumption | congruence].
Qed.

(** C1. Every sequence of upserts and removals run from an empty store
    succeeds, and a read of the store then gives a sequence of records in
    which a record occurs exactly when it was upserted and no later
    operation, upsert or removal, was about its (execution_id, task_id)
    pair; no two records of the sequence have the same pair.  The records
    upserted are those of the data model: their execution id and task id are
    texts. *)
Theorem store_holds_latest_upserts :
  forall (ops : list op) (s0 : store),
    empty_store s0 ->
    forallb op_ok ops = true ->
    exists s records,
      run ops s0 = (Ok tt, s)
      /\ read_all s = Ok (JList records)
      /\ Forall (fun a => keyed a = true) records
      /\ NoDup (map key_of records)
      /\ (forall r, In r records <-> surviving r ops).
Proof.
  intros ops s0 Hempty Hok.
  destruct (run_invariant ops s0 Hempty Hok)
    as [s [records [Hrun [Hs [Hkeyed [Hnd Hin]]]]]].
  exists s, records. repeat split; try assumption; try apply Hin.
  unfold read_all, get_pending_approvals. now rewrite (holds_read _ _ Hs).
Qed.

Lemma store_holds_latest_upserts_witness :
  exists s records,
    run [Upsert (approval (JStr "k1") "request_review" (JStr "first") JNull);
         Upsert (approval (JStr "k2") "request_review" (JStr "other") JNull);
         Upsert (approval (JStr "k1") "request_review" (JStr "second") JNull);
         Remove "k2" "request_review"]
        (MkStore Absent None) = (Ok tt, s)
    /\ read_all s = Ok (JList records)
    /\ Forall (fun a => keyed a = true) records
    /\ NoDup (map key_of records)
    /\ (forall r,
           In r records
           <-> surviving r
                 [Upsert (approval (JStr "k1") "request_review" (JStr "first") JNull);
                  Upsert (approval (JStr "k2") "request_review" (JStr "other") JNull);
                  Upsert (approval (JStr "k1") "request_review" (JStr "second") JNull);
                  Remove "k2" "request_review"]).
Proof.
  apply (store_holds_latest_upserts
           [Upsert (approval (JStr "k1") "request_review" (JStr "first") JNull);
            Upsert (approval (JStr "k2") "request_review" (JStr "other") JNull);
            Upsert (approval (JStr "k1") "request_review" (JStr "second") JNull);
            Remove "k2" "request_review"]
           (MkStore Absent None)).
  - split; [reflexivity | left; reflexivity].
  - reflexivity.
Defined.

(** Two posts with the same [kickoff_id] and [name] and different outputs
    leave one record, with the second output. *)
Example task_twice_keeps_second_output :
  let post text :=
    task (Some (JObj [("kickoff_id", JStr "k1"); ("name", JStr "request_review");
                      ("output", JStr text)])) in
  read_all (store_after (post "second") (store_after (post "first") (MkStore Absent None)))
  = Ok (JList [approval (JStr "k1") "request_review" (JStr "second")
                 (JObj [("kickoff_id", JStr "k1"); ("name", JStr "request_review");
                        ("output", JStr "second")])]).
Proof. reflexivity. Qed.

(** A post without the review marker is acknowledged and stores nothing. *)
Example task_send_reply_ignored :
  task (Some (JObj [("name", JStr "send_reply")])) (MkStore Absent None)
  = (Ok task_received, MkStore Absent None).
Proof. reflexivity. Qed.

(** A body that parses to something other than a mapping ends in the 500
    response. *)
Example task_list_body_fails :
  task (Some (JList [JInt 1])) (MkStore Absent None)
  = (Ok (JObj [("ok", JBool false);
               ("message", JStr "'list' object has no attribute 'get'")], 500),
     MkStore Absent None).
Proof. reflexivity. Qed.

(** ** Starting the listener *)

Lemma start_when_alive (port : option Z) (p : process) :
  handle_alive p = true -> start_webhook_server port p = (Ok true, p).
Proof.
  unfold handle_alive, start_webhook_server. intros H. now rewrite H.
Qed.

Lemma start_when_not_alive (port : option Z) (p : process) (n : Z) :
  handle_alive p = false ->
  resolve_port port p = Ok n ->
  start_webhook_server port p
  = match start_error p with
    | None => (Ok true, set_thread (MkThread n true) p)
    | Some _ => (Ok false, set_thread (MkThread n false) p)
    end.
Proof.
  unfold handle_alive, start_webhook_server. intros H Hn. now rewrite H, Hn.
Qed.

(** C6, as the code has it.  [start_webhook_server] is idempotent: when the
    thread of the handle is alive it returns true and starts nothing.
    Otherwise, the port being the given one when it is not zero, else the
    integer of [HITL_WEBHOOK_PORT], else 5050, it starts a thread running
    the listener for that port and returns true; it returns false exactly
    when starting the thread raises.  A port held by another process does not
    make it return false. *)
Theorem start_webhook_server_spec :
  forall (port : option Z) (p : process),
    (handle_alive p = true -> start_webhook_server port p = (Ok true, p))
    /\ (forall n,
           handle_alive p = false ->
           resolve_port port p = Ok n ->
           (start_error p = None ->
            start_webhook_server port p = (Ok true, set_thread (MkThread n true) p))
           /\ (start_error p <> None ->
               fst (start_webhook_server port p) = Ok false))
    /\ (fst (start_webhook_server port p) = Ok false <->
        handle_alive p = false
        /\ (exists n, resolve_port port p = Ok n)
        /\ start_error p <> None)
    /\ (forall n, n <> 0 -> resolve_port (Some n) p = Ok n)
    /\ (HITL_WEBHOOK_PORT p = PortUnset -> resolve_port None p = Ok 5050)
    /\ (forall n, HITL_WEBHOOK_PORT p = PortInt n -> resolve_port None p = Ok n).
Proof.
  intros port p.
  split; [apply start_when_alive |].
  split; [| split; [| split; [| split]]].
  - intros n Ha Hn. rewrite (start_when_not_alive _ _ _ Ha Hn).
    split; [intros ->; reflexivity |].
    destruct (start_error p); [reflexivity | congruence].
  - split.
    + intros H. destruct (handle_alive p) eqn:Ha.
      * rewrite (start_when_alive _ _ Ha) in H. discriminate.
      * split; [reflexivity |].
        unfold start_webhook_server in H. unfold handle_alive in Ha.
        rewrite Ha in H.
        destruct (resolve_port port p) as [n | e]; [| discriminate].
        split; [now exists n |].
        destruct (start_error p); [discriminate | discriminate].
    + intros [Ha [[n Hn] He]]. rewrite (start_when_not_alive _ _ _ Ha Hn).
      destruct (start_error p); [reflexivity | congruence].
  - intros n Hn. cbn. apply Z.eqb_neq in Hn. now rewrite Hn.
  - intros H. cbn. unfold env_port. now rewrite H.
  - intros n H. cbn. unfold env_port. now rewrite H.
Qed.

Lemma start_webhook_server_spec_witness :
  start_webhook_server (Some 8080) (MkProcess None PortUnset None [])
  = (Ok true, MkProcess (Some (MkThread 8080 true)) PortUnset None []).
Proof.
  destruct (start_webhook_server_spec (Some 8080) (MkProcess None PortUnset None []))
    as [_ [H _]].
  destruct (H 8080 eq_refl eq_refl) as [H1 _].
  exact (H1 eq_refl).
Defined.

(** C6 as stated fails: with port 5050 held by another process the launch
    of the listener fails, and [start_webhook_server] still returns true;
    no listener is serving afterwards. *)
Lemma start_returns_true_when_port_bound :
  ~ (forall (port : option Z) (p : process) (n : Z),
        handle_alive p = false ->
        resolve_port port p = Ok n ->
        launch_fails n p ->
        fst (start_webhook_server port p) = Ok false).
Proof.
  intros H.
  specialize (H None (MkProcess None PortUnset None [5050]) 5050 eq_refl eq_refl).
  assert (Hfail : launch_fails 5050 (MkProcess None PortUnset None [5050])).
  { right. reflexivity. }
  specialize (H Hfail). discriminate H.
Qed.

Example nothing_listens_on_bound_port :
  let p := MkProcess None PortUnset None [5050] in
  start_webhook_server None p = (Ok true, set_thread (MkThread 5050 true) p)
  /\ listening (snd (start_webhook_server None p)) = false.
Proof. split; reflexivity. Qed.

(** * Further properties of the store and its handlers *)

(** ** What an operation leaves in the store *)

Lemma not_this_approval_nondict (e t a : json) :
  is_dict a = false -> exists x, not_this_approval e t a = Raise x.
Proof.
  destruct a; try discriminate; intros _; eexists; reflexivity.
Qed.

Lemma not_extracted_nondict (r a : json) :
  is_dict a = false -> exists x, not_extracted r a = Raise x.
Proof.
  destruct a; try discriminate; intros _; eexists; reflexivity.
Qed.

Lemma not_extracted_dict (r : json) (e t : string) (kv : list (string * json)) :
  key_of r = Some (e, t) ->
  not_extracted r (JObj kv) = Ok (negb (has_pair e t (JObj kv))).
Proof.
  intros Hr.
  assert (Hk : keyed r = true) by (unfold keyed; now rewrite Hr).
  destruct (keyed_inv r Hk) as [kr [er [tr [-> [Her [Htr Hkr]]]]]].
  rewrite Hkr in Hr. injection Hr as -> ->.
  unfold not_extracted, has_pair, dict_get. cbn [rbind].
  rewrite (subscript_field _ _ _ Her). cbn [rbind].
  destruct (py_eq (field "execution_id" kv) (JStr e)); [| reflexivity].
  cbn [rbind]. rewrite (subscript_field _ _ _ Htr). reflexivity.
Qed.

Lemma has_pair_keyed (r : json) (e t e' t' : string) :
  key_of r = Some (e, t) ->
  has_pair e' t' r = String.eqb e e' && String.eqb t t'.
Proof.
  intros Hr.
  assert (Hk : keyed r = true) by (unfold keyed; now rewrite Hr).
  destruct (keyed_inv r Hk) as [kr [er [tr [-> [Her [Htr Hkr]]]]]].
  rewrite Hkr in Hr. injection Hr as -> ->.
  unfold has_pair. now rewrite Her, Htr.
Qed.

Lemma has_pair_self (r : json) (e t : string) :
  key_of r = Some (e, t) -> has_pair e t r = true.
Proof.
  intros Hr. rewrite (has_pair_keyed _ _ _ _ _ Hr), !String.eqb_refl. reflexivity.
Qed.

Lemma keyed_is_dict (r : json) (k : string * string) :
  key_of r = Some k -> is_dict r = true.
Proof.
  destruct r; try discriminate. reflexivity.
Qed.

Section ComprehensionOverDicts.

Variable keep : json -> result bool.
Variable pred : json -> bool.
Hypothesis keep_dict : forall kv, keep (JObj kv) = Ok (pred (JObj kv)).
Hypothesis keep_nondict : forall a, is_dict a = false -> exists x, keep a = Raise x.

Lemma comprehension_dicts (items : list json) :
  forallb is_dict items = true ->
  comprehension keep items = Ok (filter pred items).
Proof.
  intros H. apply comprehension_filter.
  apply Forall_forall. intros a Ha.
  rewrite forallb_forall in H. specialize (H a Ha).
  destruct a; try discriminate. apply keep_dict.
Qed.

Lemma comprehension_nondict (items : list json) :
  forallb is_dict items = false ->
  exists x, comprehension keep items = Raise x.
Proof.
  induction items as [| a items IH]; [discriminate |].
  cbn [forallb comprehension]. intros H.
  destruct (is_dict a) eqn:Ha.
  - destruct a; try discriminate. rewrite keep_dict. cbn [rbind].
    destruct (IH H) as [x Hx]. rewrite Hx. now exists x.
  - destruct (keep_nondict a Ha) as [x Hx]. rewrite Hx. now exists x.
Qed.

End ComprehensionOverDicts.

Lemma items_of_read (s : store) (items : list json) :
  items_of s = Ok items ->
  exists v, _read_store s = (Ok v, s) /\ py_iter v = Ok items.
Proof.
  unfold items_of. destruct (read_all s) as [v | x] eqn:Hr; [| discriminate].
  cbn [rbind]. intros H. exists v. split; [now apply read_all_frame | assumption].
Qed.

Lemma items_of_raise (s : store) (x : exn) :
  items_of s = Raise x ->
  forall (A : Type) (k : list json -> M A),
    snd ((stored <- _read_store ;; items <- lift (py_iter stored) ;; k items)%store s)
    = s.
Proof.
  unfold items_of, read_all, get_pending_approvals. intros H A k.
  unfold bind, lift. pose proof (read_store_frame s) as Hs.
  destruct (_read_store s) as [[v | x0] s0]; cbn in Hs, H |- *; subst s0;
    [| reflexivity].
  destruct (py_iter v); [discriminate | reflexivity].
Qed.

(** The store a removal leaves, in every case. *)
Lemma remove_approval_cases (e t : string) (s : store) :
  store_after (remove_approval e t) s
  = match items_of s with
    | Ok items =>
        if forallb is_dict items
        then match write_error s with
             | None => MkStore (Doc (JList (others e t items))) None
             | Some _ => s
             end
        else s
    | Raise _ => s
    end.
Proof.
  destruct (items_of s) as [items | x] eqn:Hi.
  - destruct (items_of_read _ _ Hi) as [v [Hv Hit]].
    unfold store_after, remove_approval, bind, lift. rewrite Hv, Hit.
    destruct (forallb is_dict items) eqn:Hd.
    + rewrite (comprehension_dicts _ (fun a => negb (has_pair e t a))
                 (not_this_approval_dict e t) items Hd).
      unfold _write_store. destruct (write_error s); reflexivity.
    + destruct (comprehension_nondict _ (fun a => negb (has_pair e t a))
                  (not_this_approval_dict e t)
                  (not_this_approval_nondict (JStr e) (JStr t)) items Hd)
        as [x Hx].
      rewrite Hx. reflexivity.
  - apply (items_of_raise _ _ Hi).
Qed.

(** The store an upsert of a record with texts for ids leaves, in every
    case. *)
Lemma upsert_cases (r : json) (e t : string) (s : store) :
  key_of r = Some (e, t) ->
  store_after (upsert r) s
  = match items_of s with
    | Ok items =>
        if forallb is_dict items
        then match write_error s with
             | None => MkStore (Doc (JList (others e t items ++ [r]))) None
             | Some _ => s
             end
        else s
    | Raise _ => s
    end.
Proof.
  intros Hr.
  destruct (items_of s) as [items | x] eqn:Hi.
  - destruct (items_of_read _ _ Hi) as [v [Hv Hit]].
    unfold store_after, upsert, bind, lift. rewrite Hv, Hit.
    destruct (forallb is_dict items) eqn:Hd.
    + rewrite (comprehension_dicts _ (fun a => negb (has_pair e t a))
                 (fun kv => not_extracted_dict r e t kv Hr) items Hd).
      unfold _write_store. destruct (write_error s); reflexivity.
    + destruct (comprehension_nondict _ (fun a => negb (has_pair e t a))
                  (fun kv => not_extracted_dict r e t kv Hr)
                  (not_extracted_nondict r) items Hd)
        as [x Hx].
      rewrite Hx. reflexivity.
  - apply (items_of_raise _ _ Hi).
Qed.

Lemma items_of_written (records : list json) :
  items_of (MkStore (Doc (JList records)) None) = Ok records.
Proof. reflexivity. Qed.

Lemma others_dicts (e t : string) (items : list json) :
  forallb is_dict items = true -> forallb is_dict (others e t items) = true.
Proof.
  rewrite !forallb_forall. intros H a Ha. apply filter_In in Ha. apply H, Ha.
Qed.

Lemma others_idem (e t : string) (items : list json) :
  others e t (others e t items) = others e t items.
Proof.
  unfold others. induction items as [| a items IH]; [reflexivity |].
  cbn [filter]. destruct (negb (has_pair e t a)) eqn:Ha; [| assumption].
  cbn [filter]. now rewrite Ha, IH.
Qed.

Lemma others_comm (e1 t1 e2 t2 : string) (items : list json) :
  others e1 t1 (others e2 t2 items) = others e2 t2 (others e1 t1 items).
Proof.
  unfold others. induction items as [| a items IH]; [reflexivity |].
  cbn [filter].
  destruct (negb (has_pair e2 t2 a)) eqn:H2;
    destruct (negb (has_pair e1 t1 a)) eqn:H1; cbn [filter];
    rewrite ?H1, ?H2, ?IH; reflexivity.
Qed.

Lemma others_app (e t : string) (l1 l2 : list json) :
  others e t (l1 ++ l2) = others e t l1 ++ others e t l2.
Proof.
  unfold others. apply filter_app.
Qed.

Lemma others_none (e t : string) (items : list json) :
  filter (has_pair e t) (others e t items) = [].
Proof.
  unfold others. induction items as [| a items IH]; [reflexivity |].
  cbn [filter]. destruct (has_pair e t a) eqn:Ha; cbn [negb filter];
    [assumption | now rewrite Ha].
Qed.

Lemma others_self (r : json) (e t : string) :
  key_of r = Some (e, t) -> others e t [r] = [].
Proof.
  intros Hr. unfold others. cbn [filter]. now rewrite (has_pair_self _ _ _ Hr).
Qed.

Lemma others_other (r : json) (e t : string) :
  has_pair e t r = false -> others e t [r] = [r].
Proof.
  intros Hr. unfold others. cbn [filter]. now rewrite Hr.
Qed.

Lemma dicts_app (l1 l2 : list json) :
  forallb is_dict (l1 ++ l2) = forallb is_dict l1 && forallb is_dict l2.
Proof. apply forallb_app. Qed.

(** The three ways an operation can fail leave the same store under every
    later operation; what is left to compare is the store written. *)
Ltac store_cases s :=
  destruct (items_of s) as [?items | ?x] eqn:?Hitems;
  [ destruct (forallb is_dict items) eqn:?Hdicts;
    [ destruct (write_error s) as [?w |] eqn:?Hwrite | ] | ].

(** ** The task handler, case by case *)

Lemma is_review_task_dict (body : json) (b : bool) :
  _is_review_task body = Ok b -> exists fields, body = JObj fields.
Proof.
  destruct body; try discriminate. intros _. now eexists.
Qed.

Lemma extract_ids (fields : list (string * json)) (r : json) :
  _extract_from_task_payload (JObj fields) = Ok (Some r) ->
  subscript r "execution_id" = Ok (derived_execution_id fields)
  /\ subscript r "task_id" = Ok (JStr (py_str (derived_task_id fields))).
Proof.
  rewrite extract_unfold. cbv zeta.
  destruct (truthy (derived_execution_id fields)); [| discriminate].
  intros H. injection H as <-. split; reflexivity.
Qed.

Lemma not_extracted_same_ids (r e t : json) (kv : list (string * json)) :
  subscript r "execution_id" = Ok e ->
  subscript r "task_id" = Ok t ->
  not_extracted r (JObj kv) = Ok (negb (same_ids e t (JObj kv))).
Proof.
  intros He Ht. unfold not_extracted, same_ids, dict_get. cbn [rbind].
  rewrite He. cbn [rbind].
  destruct (py_eq (field "execution_id" kv) e); [| reflexivity].
  cbn [rbind]. rewrite Ht. reflexivity.
Qed.

(** The store the storage step writes: the dict records with other ids,
    in their order, then the record. *)
Lemma upsert_written (r e t : json) (s : store) (items : list json) :
  subscript r "execution_id" = Ok e ->
  subscript r "task_id" = Ok t ->
  items_of s = Ok items ->
  forallb is_dict items = true ->
  write_error s = None ->
  upsert r s
  = (Ok tt,
     MkStore (Doc (JList (filter (fun a => negb (same_ids e t a)) items ++ [r]))) None).
Proof.
  intros He Ht Hi Hd Hw.
  destruct (items_of_read _ _ Hi) as [v [Hv Hit]].
  unfold upsert, bind, lift. rewrite Hv, Hit.
  rewrite (comprehension_dicts _ (fun a => negb (same_ids e t a))
             (fun kv => not_extracted_same_ids r e t kv He Ht) items Hd).
  unfold _write_store. now rewrite Hw.
Qed.

(** C2. For every request body delivered to [POST /task]: a body that is
    not valid JSON is handled as the empty mapping; the handler always
    answers, with status 200, 400 or 500; a body that is not a review task
    is acknowledged with 200 and nothing is stored; a review task whose
    extraction succeeds is upserted and answered 200 ok: on a store of dict
    records that can be written, the store then holds the records whose ids
    differ from the extracted ones, in their order, followed by the
    extracted record; a review task without execution id is answered 400 and
    nothing is stored; an exception raised on the way is turned into the 500
    response carrying its message and does not leave the handler.  Posting
    [{"kickoff_id": "k1", "name": "request_review", "output": "Hi"}] to an
    empty store answers 200 ok and leaves exactly one record, with
    execution id "k1"; posting it to a store that holds an older record of
    the same pair and a record of another run replaces the former and keeps
    the latter. *)
Theorem task_handler_cases :
  (forall s, task None s = task (Some (JObj [])) s)
  /\ (forall (payload : option json) (s : store),
         let body := request_body payload in
         (exists resp s',
             task payload s = (Ok resp, s')
             /\ (status resp = 200 \/ status resp = 400 \/ status resp = 500))
         /\ (_is_review_task body = Ok false ->
             task payload s = (Ok task_received, s))
         /\ (forall r,
                _is_review_task body = Ok true ->
                _extract_from_task_payload body = Ok (Some r) ->
                (forall s', upsert r s = (Ok tt, s') ->
                            task payload s = (Ok task_stored, s'))
                /\ (forall e s', upsert r s = (Raise e, s') ->
                                 task payload s = (Ok (task_failed e), s'))
                /\ (forall items,
                       items_of s = Ok items ->
                       forallb is_dict items = true ->
                       write_error s = None ->
                       exists e t,
                         subscript r "execution_id" = Ok e
                         /\ subscript r "task_id" = Ok t
                         /\ task payload s
                            = (Ok task_stored,
                               MkStore
                                 (Doc (JList
                                         (filter (fun a => negb (same_ids e t a)) items
                                          ++ [r])))
                                 None)))
         /\ (_is_review_task body = Ok true ->
             _extract_from_task_payload body = Ok None ->
             task payload s = (Ok task_missing_id, s))
         /\ (forall e, _is_review_task body = Raise e ->
                       task payload s = (Ok (task_failed e), s)))
  /\ (let body := JObj [("kickoff_id", JStr "k1"); ("name", JStr "request_review");
                        ("output", JStr "Hi")] in
      let s' := store_after (task (Some body)) (MkStore Absent None) in
      task (Some body) (MkStore Absent None) = (Ok task_stored, s')
      /\ read_all s' = Ok (JList [approval (JStr "k1") "request_review" (JStr "Hi") body]))
  /\ (let body := JObj [("kickoff_id", JStr "k1"); ("name", JStr "request_review");
                        ("output", JStr "Hi")] in
      let older := approval (JStr "k1") "request_review" (JStr "Old") JNull in
      let other := approval (JStr "k2") "request_review" (JStr "Other") JNull in
      task (Some body) (MkStore (Doc (JList [older; other])) None)
      = (Ok task_stored,
         MkStore (Doc (JList [other;
                              approval (JStr "k1") "request_review" (JStr "Hi") body]))
                 None)).
Proof.
  split; [reflexivity |].
  split; [| split; [split; reflexivity | reflexivity]].
  intros payload s body. rewrite task_unfold. fold body.
  split; [| split; [| split; [| split]]].
  - destruct (_is_review_task body) as [[|] | e]; [| answered | answered].
    destruct (_extract_from_task_payload body) as [[r |] | e];
      [| answered | answered].
    destruct (upsert r s) as [[u | e] s']; answered.
  - intros H. now rewrite H.
  - intros r Hrev Hex. rewrite Hrev, Hex. split; [| split].
    + intros s' Hu. now rewrite Hu.
    + intros e s' Hu. now rewrite Hu.
    + intros items Hi Hd Hw.
      destruct (is_review_task_dict _ _ Hrev) as [fields Hbody].
      rewrite Hbody in Hex. destruct (extract_ids _ _ Hex) as [He Ht].
      eexists. eexists. split; [exact He |]. split; [exact Ht |].
      now rewrite (upsert_written _ _ _ _ _ He Ht Hi Hd Hw).
  - intros Hrev Hex. now rewrite Hrev, Hex.
  - intros e H. now rewrite H.
Qed.

Lemma task_handler_cases_witness :
  let body := JObj [("execution_id", JInt 1); ("task_id", JStr "Final Review")] in
  let r := approval (JInt 1) "Final Review" (JStr no_output) body in
  let same := approval (JBool true) "Final Review" (JStr "old") JNull in
  let other := approval (JInt 1) "Peer Review" (JStr "kept") JNull in
  task (Some body) (MkStore (Doc (JList [other; same; other])) None)
  = (Ok task_stored, MkStore (Doc (JList [other; other; r])) None).
Proof.
  cbv zeta.
  destruct task_handler_cases as [_ [H _]].
  destruct (H (Some (JObj [("execution_id", JInt 1); ("task_id", JStr "Final Review")]))
              (MkStore (Doc (JList [approval (JInt 1) "Peer Review" (JStr "kept") JNull;
                                    approval (JBool true) "Final Review" (JStr "old") JNull;
                                    approval (JInt 1) "Peer Review" (JStr "kept") JNull]))
                       None))
    as [_ [_ [Hstore _]]].
  destruct (Hstore _ eq_refl eq_refl) as [_ [_ Hitems]].
  destruct (Hitems _ eq_refl eq_refl eq_refl) as [e [t [He [Ht Htask]]]].
  injection He as <-. injection Ht as <-. exact Htask.
Defined.

(** X1. On a store whose read gives dict records and whose file can be
    written, upserting a record with texts for ids succeeds; the read then
    gives the records of other pairs in their order followed by the new
    record, which is the only one with its pair, whatever number of records
    had that pair before. *)
Theorem upsert_replaces_and_appends :
  forall (s : store) (r : json) (e t : string) (items : list json),
    key_of r = Some (e, t) ->
    items_of s = Ok items ->
    forallb is_dict items = true ->
    write_error s = None ->
    fst (upsert r s) = Ok tt
    /\ read_all (store_after (upsert r) s) = Ok (JList (others e t items ++ [r]))
    /\ filter (has_pair e t) (others e t items ++ [r]) = [r].
Proof.
  intros s r e t items Hr Hi Hd Hw. split; [| split].
  - destruct (items_of_read _ _ Hi) as [v [Hv Hit]].
    unfold upsert, bind, lift. rewrite Hv, Hit.
    rewrite (comprehension_dicts _ (fun a => negb (has_pair e t a))
               (fun kv => not_extracted_dict r e t kv Hr) items Hd).
    unfold _write_store. now rewrite Hw.
  - rewrite (upsert_cases r e t s Hr), Hi, Hd, Hw. reflexivity.
  - rewrite filter_app, others_none. cbn [filter app].
    now rewrite (has_pair_self _ _ _ Hr).
Qed.

Lemma upsert_replaces_and_appends_witness :
  let old1 := approval (JStr "k1") "review" (JStr "stale") JNull in
  let old2 := approval (JStr "k1") "review" (JStr "staler") JNull in
  let keep := approval (JInt 7) "review" (JStr "kept") JNull in
  let r := approval (JStr "k1") "review" (JStr "fresh") JNull in
  read_all (store_after (upsert r) (MkStore (Doc (JList [old1; keep; old2])) None))
  = Ok (JList [keep; r]).
Proof.
  cbv zeta.
  apply (proj1 (proj2 (upsert_replaces_and_appends
                         (MkStore (Doc (JList [approval (JStr "k1") "review" (JStr "stale") JNull;
                                               approval (JInt 7) "review" (JStr "kept") JNull;
                                               approval (JStr "k1") "review" (JStr "staler") JNull]))
                                  None)
                         (approval (JStr "k1") "review" (JStr "fresh") JNull)
                         "k1" "review" _ eq_refl eq_refl eq_refl eq_refl))).
Defined.

(** X2. On a store whose read gives dict records and whose file can be
    written, [remove_approval(e, t)] succeeds and the read then gives the
    records without every record that had the pair, the others in their
    order: no record with the pair is left, and a record without it is
    kept. *)
Theorem remove_approval_deletes_pair :
  forall (s : store) (e t : string) (items : list json),
    items_of s = Ok items ->
    forallb is_dict items = true ->
    write_error s = None ->
    fst (remove_approval e t s) = Ok tt
    /\ read_all (store_after (remove_approval e t) s) = Ok (JList (others e t items))
    /\ filter (has_pair e t) (others e t items) = []
    /\ (forall a, In a (others e t items) <-> In a items /\ has_pair e t a = false).
Proof.
  intros s e t items Hi Hd Hw. split; [| split; [| split]].
  - destruct (items_of_read _ _ Hi) as [v [Hv Hit]].
    unfold remove_approval, bind, lift. rewrite Hv, Hit.
    rewrite (comprehension_dicts _ (fun a => negb (has_pair e t a))
               (not_this_approval_dict e t) items Hd).
    unfold _write_store. now rewrite Hw.
  - rewrite remove_approval_cases, Hi, Hd, Hw. reflexivity.
  - apply others_none.
  - intros a. unfold others. rewrite filter_In, negb_true_iff. reflexivity.
Qed.

Lemma remove_approval_deletes_pair_witness :
  let a1 := approval (JStr "k1") "review" (JStr "one") JNull in
  let a2 := approval (JStr "k2") "review" (JStr "two") JNull in
  read_all (store_after (remove_approval "k1" "review")
                        (MkStore (Doc (JList [a1; a2; a1])) None))
  = Ok (JList [a2]).
Proof.
  cbv zeta.
  apply (proj1 (proj2 (remove_approval_deletes_pair
                         (MkStore (Doc (JList [approval (JStr "k1") "review" (JStr "one") JNull;
                                               approval (JStr "k2") "review" (JStr "two") JNull;
                                               approval (JStr "k1") "review" (JStr "one") JNull]))
                                  None)
                         "k1" "review" _ eq_refl eq_refl eq_refl))).
Defined.

(** X3. Removing a pair twice is removing it once, from every store. *)
Theorem remove_approval_idempotent :
  forall (s : store) (e t : string),
    store_after (remove_approval e t) (store_after (remove_approval e t) s)
    = store_after (remove_approval e t) s.
Proof.
  intros s e t.
  rewrite (remove_approval_cases e t s).
  store_cases s; rewrite remove_approval_cases;
    rewrite ?Hitems, ?Hdicts, ?Hwrite; try reflexivity.
  rewrite items_of_written, (others_dicts _ _ _ Hdicts). cbn [write_error].
  now rewrite others_idem.
Qed.

(** X4. Two removals commute, from every store. *)
Theorem remove_approval_commutes :
  forall (s : store) (e1 t1 e2 t2 : string),
    store_after (remove_approval e1 t1) (store_after (remove_approval e2 t2) s)
    = store_after (remove_approval e2 t2) (store_after (remove_approval e1 t1) s).
Proof.
  intros s e1 t1 e2 t2.
  rewrite (remove_approval_cases e2 t2 s), (remove_approval_cases e1 t1 s).
  store_cases s; rewrite ?remove_approval_cases;
    rewrite ?Hitems, ?Hdicts, ?Hwrite; try reflexivity.
  rewrite !items_of_written, !(others_dicts _ _ _ Hdicts).
  cbn [write_error]. now rewrite others_comm.
Qed.

(** X5. Upserting the same record twice is upserting it once, from every
    store, for a record with texts for ids. *)
Theorem upsert_idempotent :
  forall (s : store) (r : json) (e t : string),
    key_of r = Some (e, t) ->
    store_after (upsert r) (store_after (upsert r) s) = store_after (upsert r) s.
Proof.
  intros s r e t Hr.
  rewrite (upsert_cases r e t s Hr).
  store_cases s; rewrite (upsert_cases r e t _ Hr);
    rewrite ?Hitems, ?Hdicts, ?Hwrite; try reflexivity.
  rewrite items_of_written, dicts_app, (others_dicts _ _ _ Hdicts).
  cbn [forallb]. rewrite (keyed_is_dict _ _ Hr). cbn [andb write_error].
  now rewrite others_app, others_idem, (others_self _ _ _ Hr), app_nil_r.
Qed.

Lemma upsert_idempotent_witness :
  let r := approval (JStr "k1") "review" (JStr "text") JNull in
  let s := MkStore (Faulty (MkExn JSONDecodeError "Expecting value")) None in
  store_after (upsert r) (store_after (upsert r) s) = store_after (upsert r) s.
Proof.
  cbv zeta.
  apply (upsert_idempotent _ _ "k1" "review"). reflexivity.
Defined.

(** X6. Removing the pair of a record after upserting it leaves what
    removing the pair alone leaves, from every store. *)
Theorem remove_after_upsert :
  forall (s : store) (r : json) (e t : string),
    key_of r = Some (e, t) ->
    store_after (remove_approval e t) (store_after (upsert r) s)
    = store_after (remove_approval e t) s.
Proof.
  intros s r e t Hr.
  rewrite (upsert_cases r e t s Hr), (remove_approval_cases e t s).
  store_cases s; rewrite ?remove_approval_cases;
    rewrite ?Hitems, ?Hdicts, ?Hwrite; try reflexivity.
  rewrite items_of_written, dicts_app, (others_dicts _ _ _ Hdicts).
  cbn [forallb]. rewrite (keyed_is_dict _ _ Hr). cbn [andb write_error].
  now rewrite others_app, others_idem, (others_self _ _ _ Hr), app_nil_r.
Qed.

Lemma remove_after_upsert_witness :
  let r := approval (JStr "k1") "review" (JStr "text") JNull in
  let s := MkStore (Doc (JList [approval (JStr "k2") "review" (JStr "two") JNull])) None in
  store_after (remove_approval "k1" "review") (store_after (upsert r) s)
  = store_after (remove_approval "k1" "review") s.
Proof.
  cbv zeta.
  apply remove_after_upsert. reflexivity.
Defined.

(** X7. An upsert and the removal of another pair commute, from every
    store. *)
Theorem upsert_commutes_with_other_removal :
  forall (s : store) (r : json) (e t e' t' : string),
    key_of r = Some (e, t) ->
    (e, t) <> (e', t') ->
    store_after (remove_approval e' t') (store_after (upsert r) s)
    = store_after (upsert r) (store_after (remove_approval e' t') s).
Proof.
  intros s r e t e' t' Hr Hdiff.
  assert (Hno : has_pair e' t' r = false).
  { rewrite (has_pair_keyed _ _ _ _ _ Hr).
    apply not_true_iff_false. rewrite andb_true_iff, !String.eqb_eq.
    intros [-> ->]. now apply Hdiff. }
  rewrite (upsert_cases r e t s Hr), (remove_approval_cases e' t' s).
  store_cases s; rewrite ?remove_approval_cases, ?(upsert_cases r e t _ Hr);
    rewrite ?Hitems, ?Hdicts, ?Hwrite; try reflexivity.
  rewrite !items_of_written, dicts_app, !(others_dicts _ _ _ Hdicts).
  cbn [forallb]. rewrite (keyed_is_dict _ _ Hr). cbn [andb write_error].
  now rewrite others_app, others_comm, (others_other _ _ _ Hno).
Qed.

Lemma upsert_commutes_with_other_removal_witness :
  let r := approval (JStr "k1") "review" (JStr "text") JNull in
  let s := MkStore (Doc (JList [approval (JStr "k2") "review" (JStr "two") JNull])) None in
  store_after (remove_approval "k2" "review") (store_after (upsert r) s)
  = store_after (upsert r) (store_after (remove_approval "k2" "review") s).
Proof.
  cbv zeta.
  apply (upsert_commutes_with_other_removal _ _ "k1" "review").
  - reflexivity.
  - discriminate.
Defined.

(** ** The order of the stored records *)

Lemma key_eqb_sym (k1 k2 : option (string * string)) :
  key_eqb k1 k2 = key_eqb k2 k1.
Proof.
  destruct k1 as [[e1 t1] |], k2 as [[e2 t2] |]; cbn; try reflexivity.
  now rewrite (String.eqb_sym e1 e2), (String.eqb_sym t1 t2).
Qed.

Lemma touched_snoc (k : option (string * string)) (ops : list op) (o : op) :
  touched k (ops ++ [o]) = touched k ops || key_eqb (op_key o) k.
Proof.
  unfold touched. rewrite existsb_app. cbn. now rewrite orb_false_r.
Qed.

Lemma survivors_snoc (ops : list op) (o : op) :
  survivors (ops ++ [o])
  = without (op_key o) (survivors ops)
    ++ match o with
       | Upsert r => [r]
       | Remove _ _ => []
       end.
Proof.
  induction ops as [| o' ops IH].
  - destruct o; reflexivity.
  - destruct o' as [r' | e' t']; cbn [app survivors]; [| exact IH].
    rewrite touched_snoc.
    destruct (touched (key_of r') ops); cbn [orb]; [exact IH |].
    unfold without at 1. cbn [filter]. fold (without (op_key o) (survivors ops)).
    rewrite (key_eqb_sym (key_of r') (op_key o)).
    destruct (key_eqb (op_key o) (key_of r')); cbn [negb]; rewrite IH; reflexivity.
Qed.

Lemma run_holds_survivors (ops : list op) (s0 : store) :
  empty_store s0 ->
  forallb op_ok ops = true ->
  exists s,
    run ops s0 = (Ok tt, s)
    /\ holds s (survivors ops)
    /\ Forall (fun a => keyed a = true) (survivors ops).
Proof.
  intros [Hw Hempty] Hok.
  induction ops as [| o ops IH] using rev_ind.
  - exists s0. split; [reflexivity |].
    split; [split; [exact Hw | destruct Hempty; [right | left]; auto] | constructor].
  - rewrite forallb_app in Hok. apply andb_true_iff in Hok.
    destruct Hok as [Hops Ho]. cbn in Ho. rewrite andb_true_r in Ho.
    destruct (IH Hops) as [s [Hrun [Hs Hkeyed]]].
    rewrite run_snoc, Hrun, survivors_snoc.
    destruct o as [r | e t]; cbn [exec op_ok op_key] in *.
    + destruct (upsert_holds _ _ _ Hs Hkeyed Ho) as [s' [Hup Hs']].
      exists s'. split; [assumption |]. split; [assumption |].
      apply Forall_app. split; [now apply without_keyed | now constructor].
    + destruct (remove_holds _ _ e t Hs Hkeyed) as [s' [Hrm Hs']].
      exists s'. rewrite app_nil_r. split; [assumption |].
      split; [assumption | now apply without_keyed].
Qed.

(** X8. After a run of upserts and removals from an empty store, the read
    gives the surviving records in the order in which they were last
    upserted: a record upserted again moves to the end. *)
Theorem store_lists_survivors_in_order :
  forall (ops : list op) (s0 : store),
    empty_store s0 ->
    forallb op_ok ops = true ->
    fst (run ops s0) = Ok tt
    /\ read_all (store_after (run ops) s0) = Ok (JList (survivors ops)).
Proof.
  intros ops s0 Hempty Hok.
  destruct (run_holds_survivors ops s0 Hempty Hok) as [s [Hrun [Hs _]]].
  unfold store_after. rewrite Hrun. split; [reflexivity |].
  unfold read_all, get_pending_approvals. cbn [snd].
  now rewrite (holds_read _ _ Hs).
Qed.

Lemma store_lists_survivors_in_order_witness :
  let a := approval (JStr "k1") "review" (JStr "a") JNull in
  let b := approval (JStr "k2") "review" (JStr "b") JNull in
  let a' := approval (JStr "k1") "review" (JStr "a2") JNull in
  read_all (store_after (run [Upsert a; Upsert b; Upsert a']) (MkStore Absent None))
  = Ok (JList [b; a']).
Proof.
  cbv zeta.
  apply (proj2 (store_lists_survivors_in_order
                  [Upsert (approval (JStr "k1") "review" (JStr "a") JNull);
                   Upsert (approval (JStr "k2") "review" (JStr "b") JNull);
                   Upsert (approval (JStr "k1") "review" (JStr "a2") JNull)]
                  (MkStore Absent None)
                  (conj eq_refl (or_introl eq_refl)) eq_refl)).
Defined.

(** ** What the task handler leaves in the store *)

Lemma upsert_ok_written (r : json) (s s' : store) :
  upsert r s = (Ok tt, s') ->
  write_error s = None
  /\ exists kept, s' = MkStore (Doc (JList (kept ++ [r]))) None.
Proof.
  unfold upsert, bind, lift.
  pose proof (read_store_frame s) as Hs.
  destruct (_read_store s) as [[v | x] s0]; cbn in Hs; subst s0; [| discriminate].
  destruct (py_iter v) as [items | x]; [| discriminate].
  destruct (comprehension (not_extracted r) items) as [kept | x]; [| discriminate].
  unfold _write_store. destruct (write_error s) eqn:Hw; [discriminate |].
  intros H. injection H as <-. split; [reflexivity | now exists kept].
Qed.

(** X9. What an answer of the task handler tells about the store.  The
    answer "ignored" and the 400 answer are given before the store is
    reached: the store is as it was.  The answer "stored" is given after the
    write: the store file holds a sequence whose last record is the one
    extracted from the body.  No other 200 or 400 answer exists. *)
Theorem task_answer_tells_store :
  forall (payload : option json) (s s' : store) (resp : response),
    task payload s = (Ok resp, s') ->
    (resp = task_received \/ status resp = 400 -> s' = s)
    /\ (resp = task_stored ->
        exists r kept,
          _extract_from_task_payload (request_body payload) = Ok (Some r)
          /\ hitl_file s' = Doc (JList (kept ++ [r])))
    /\ (status resp = 200 -> resp = task_received \/ resp = task_stored)
    /\ (status resp = 400 -> resp = task_missing_id).
Proof.
  intros payload s s' resp. rewrite task_unfold.
  destruct (_is_review_task (request_body payload)) as [[|] | x].
  - destruct (_extract_from_task_payload (request_body payload)) as [[r |] | x].
    + destruct (upsert r s) as [[[] | x] s1] eqn:Hup.
      * intros H. injection H as <- <-.
        split; [intros [H | H]; discriminate H |].
        split; [| split; [now right | discriminate]].
        intros _. destruct (upsert_ok_written _ _ _ Hup) as [_ [kept ->]].
        now exists r, kept.
      * intros H. injection H as <- <-.
        split; [intros [H | H]; discriminate H |].
        split; [discriminate | split; discriminate].
    + intros H. injection H as <- <-.
      split; [reflexivity |]. split; [discriminate |].
      split; [discriminate | reflexivity].
    + intros H. injection H as <- <-.
      split; [reflexivity |]. split; [discriminate |]. split; discriminate.
  - intros H. injection H as <- <-.
    split; [reflexivity |]. split; [discriminate |].
    split; [now left | discriminate].
  - intros H. injection H as <- <-.
    split; [reflexivity |]. split; [discriminate |]. split; discriminate.
Qed.

Lemma task_answer_tells_store_witness :
  store_after (task (Some (JObj [("name", JStr "review")])))
              (MkStore (Doc (JList [])) None)
  = MkStore (Doc (JList [])) None.
Proof.
  pose proof (task_answer_tells_store
                (Some (JObj [("name", JStr "review")]))
                (MkStore (Doc (JList [])) None) _ _ eq_refl) as [H _].
  apply H. right. reflexivity.
Defined.

(** X10. When the store file cannot be written the task handler never
    answers "stored", and leaves the store as it was. *)
Theorem task_on_unwritable_store :
  forall (payload : option json) (s : store) (x : exn),
    write_error s = Some x ->
    fst (task payload s) <> Ok task_stored
    /\ store_after (task payload) s = s.
Proof.
  intros payload s x Hw. unfold store_after. rewrite task_unfold.
  destruct (_is_review_task (request_body payload)) as [[|] | x1]; cbn [fst snd];
    try (split; [discriminate | reflexivity]).
  destruct (_extract_from_task_payload (request_body payload)) as [[r |] | x1];
    cbn [fst snd]; try (split; [discriminate | reflexivity]).
  destruct (upsert r s) as [[[] | x1] s1] eqn:Hup; cbn [fst snd].
  - destruct (upsert_ok_written _ _ _ Hup) as [Hw' _]. congruence.
  - split; [discriminate | now apply (upsert_raise _ _ _ _ Hup)].
Qed.

Lemma task_on_unwritable_store_witness :
  let s := MkStore Absent (Some (MkExn OSError "[Errno 13] Permission denied")) in
  let payload := Some (JObj [("name", JStr "review"); ("kickoff_id", JStr "k1")]) in
  fst (task payload s) <> Ok task_stored /\ store_after (task payload) s = s.
Proof.
  cbv zeta.
  apply (task_on_unwritable_store _ _ (MkExn OSError "[Errno 13] Permission denied")).
  reflexivity.
Defined.

(** X11. A parsed body that is not a mapping: when it is falsy (null, false,
    0, the empty text, the empty array) the handler treats it as the empty
    mapping and acknowledges it as not a review task; otherwise (true, a
    non-zero number, a non-empty text or array) the handler answers 500 with
    the message of the attribute error.  The store is left as it was in both
    cases. *)
Theorem task_on_non_mapping_body :
  forall (v : json) (s : store),
    is_dict v = false ->
    task (Some v) s
    = if truthy v
      then (Ok (JObj [("ok", JBool false);
                      ("message",
                       JStr (chr squote ++ type_name v ++ chr squote
                             ++ " object has no attribute 'get'"))], 500), s)
      else (Ok task_received, s).
Proof.
  intros v s Hv. rewrite task_unfold. unfold request_body, py_or, get_json.
  destruct v as [| [|] | n | str | l | kv]; try discriminate; cbn [truthy];
    try reflexivity.
  - destruct (negb (n =? 0)); reflexivity.
  - destruct (negb (str =? "")%string); reflexivity.
  - destruct l; reflexivity.
Qed.

Lemma task_on_non_mapping_body_witness :
  task (Some (JStr "review")) (MkStore Absent None)
  = (Ok (JObj [("ok", JBool false);
               ("message", JStr "'str' object has no attribute 'get'")], 500),
     MkStore Absent None).
Proof.
  apply (task_on_non_mapping_body (JStr "review") (MkStore Absent None)).
  reflexivity.
Defined.

(** ** What extraction yields *)

Lemma py_repr_nonempty (v : json) : py_repr v <> EmptyString.
Proof.
  destruct v as [| [|] | n | str | l | kv]; cbn; try discriminate.
  unfold str_of_int. destruct n as [| p | p]; cbn; try discriminate.
  unfold NilZero.string_of_uint.
  destruct (Pos.to_uint p); discriminate.
Qed.

Lemma py_str_truthy_nonempty (v : json) :
  truthy v = true -> py_str v <> EmptyString.
Proof.
  destruct v; try (intros _; apply py_repr_nonempty).
  cbn. intros H Hs. subst. discriminate.
Qed.

Lemma py_or_truthy (a b : json) : truthy b = true -> truthy (py_or a b) = true.
Proof.
  unfold py_or. destruct (truthy a) eqn:Ha; auto.
Qed.

(** X12. Every record extraction yields has a truthy execution id, a
    non-empty text as task id, truthy content, and the whole payload as
    [raw]. *)
Theorem extracted_record_fields :
  forall (fields : list (string * json)) (r : json),
    _extract_from_task_payload (JObj fields) = Ok (Some r) ->
    exists execution_id task_id content,
      r = approval execution_id task_id content (JObj fields)
      /\ truthy execution_id = true
      /\ task_id <> EmptyString
      /\ truthy content = true.
Proof.
  intros fields r. rewrite extract_unfold. cbv zeta.
  destruct (truthy (derived_execution_id fields)) eqn:He; [| discriminate].
  intros H. injection H as <-.
  eexists. eexists. eexists. split; [reflexivity |].
  split; [assumption |]. split.
  - apply py_str_truthy_nonempty. unfold derived_task_id.
    apply py_or_truthy, py_or_truthy. reflexivity.
  - destruct (is_dict (derived_output fields)) eqn:Hd.
    + destruct (derived_output fields); try discriminate.
      now rewrite dumps_dict_truthy, dumps_dict_truthy.
    + destruct (truthy (derived_output fields)) eqn:Ht; [assumption | reflexivity].
Qed.

Lemma extracted_record_fields_witness :
  exists execution_id task_id content,
    approval (JInt 7) "request_review" (JStr no_output) (JObj [("execution_id", JInt 7)])
    = approval execution_id task_id content (JObj [("execution_id", JInt 7)])
    /\ truthy execution_id = true
    /\ task_id <> EmptyString
    /\ truthy content = true.
Proof.
  apply (extracted_record_fields [("execution_id", JInt 7)]). reflexivity.
Defined.

(** X13. A record the task handler stores never carries the default task
    id: a payload classified as a review task has a truthy name or task id,
    the record's task id is that value as text, and it contains "review",
    letter case apart. *)
Theorem stored_task_id_contains_review :
  forall (fields : list (string * json)) (r : json),
    _is_review_task (JObj fields) = Ok true ->
    _extract_from_task_payload (JObj fields) = Ok (Some r) ->
    truthy (name_like fields) = true
    /\ derived_task_id fields = name_like fields
    /\ subscript r "task_id" = Ok (JStr (py_str (name_like fields)))
    /\ contains_ci "review" (py_str (name_like fields)).
Proof.
  intros fields r Hrev Hex.
  assert (Hc : contains_ci "review" (py_str (name_like fields))).
  { apply re_search_ignorecase_contains.
    revert Hrev. unfold _is_review_task, name_like, py_or, or_else, dict_get.
    cbn [rbind]. destruct (truthy (field "name" fields)); cbn [rbind];
      intros H; now injection H. }
  assert (Ht : truthy (name_like fields) = true).
  { unfold name_like, py_or in *.
    destruct (truthy (field "name" fields)) eqn:Hn; [assumption |].
    destruct (truthy (field "task_id" fields)) eqn:Hti; [assumption |].
    exfalso. cbn in Hc. destruct Hc as [pre [post Hc]].
    destruct pre; discriminate. }
  assert (Hd : derived_task_id fields = name_like fields).
  { unfold derived_task_id, name_like, py_or in *.
    destruct (truthy (field "name" fields)); [reflexivity |].
    destruct (truthy (field "task_id" fields)); [reflexivity | discriminate]. }
  repeat split; try assumption.
  revert Hex. rewrite extract_unfold. cbv zeta.
  destruct (truthy (derived_execution_id fields)); [| discriminate].
  intros H. injection H as <-. now rewrite Hd.
Qed.

Lemma stored_task_id_contains_review_witness :
  subscript (approval (JStr "k1") "Peer REVIEW" (JStr no_output)
               (JObj [("kickoff_id", JStr "k1"); ("task_id", JStr "Peer REVIEW")]))
            "task_id"
  = Ok (JStr "Peer REVIEW")
  /\ contains_ci "review" "Peer REVIEW".
Proof.
  destruct (stored_task_id_contains_review
              [("kickoff_id", JStr "k1"); ("task_id", JStr "Peer REVIEW")]
              _ eq_refl eq_refl) as [_ [_ [H1 H2]]].
  split; [exact H1 | exact H2].
Defined.

(** ** A store file that holds no array *)

(** X14. When the store file holds a JSON document that is not an array,
    [remove_approval] leaves the file as it was and raises, a [TypeError]
    for null, a boolean or a number and an [AttributeError] for a non-empty
    object or text; except for the empty object and the empty text, which
    it replaces by the empty array when the file can be written. *)
Theorem remove_approval_on_non_array :
  forall (s : store) (v : json) (e t : string),
    hitl_file s = Doc v ->
    is_list v = false ->
    (visits_nothing v = false ->
     exists x, remove_approval e t s = (Raise x, s) /\ exn_cls x = loop_error v)
    /\ (visits_nothing v = true ->
        write_error s = None ->
        remove_approval e t s = (Ok tt, MkStore (Doc (JList [])) None)).
Proof.
  intros s v e t Hf Hl.
  unfold remove_approval, bind, lift. rewrite read_store_cases, Hf.
  unfold _write_store.
  destruct v as [| b | n | str | l | kv]; try discriminate; cbn [py_iter].
  - split; [intros _; eexists; split; reflexivity | discriminate].
  - split; [intros _; eexists; split; reflexivity | discriminate].
  - split; [intros _; eexists; split; reflexivity | discriminate].
  - destruct str as [| c str]; cbn.
    + split; [discriminate | intros _ ->; reflexivity].
    + split; [intros _; eexists; split; reflexivity | discriminate].
  - destruct kv as [| [k w] kv]; cbn.
    + split; [discriminate | intros _ ->; reflexivity].
    + split; [intros _; eexists; split; reflexivity | discriminate].
Qed.

Lemma remove_approval_on_non_array_witness :
  remove_approval "k1" "review" (MkStore (Doc (JObj [])) None)
  = (Ok tt, MkStore (Doc (JList [])) None).
Proof.
  apply (proj2 (remove_approval_on_non_array
                  (MkStore (Doc (JObj [])) None) (JObj []) "k1" "review"
                  eq_refl eq_refl));
    reflexivity.
Defined.

(** ** Starting the listener again *)



(** X16. With no listener alive, a call without a usable port (none given,
    or 0) while [HITL_WEBHOOK_PORT] holds a text that is no integer raises
    [ValueError] and starts nothing; these are the only calls that raise.
    A call that returns false leaves a handle that is not alive, so that
    the next call tries again. *)
Theorem start_webhook_server_failures :
  forall (port : option Z) (p : process),
    (forall x, fst (start_webhook_server port p) = Raise x ->
               start_webhook_server port p = (Raise x, p)
               /\ exn_cls x = ValueError
               /\ handle_alive p = false
               /\ (port = None \/ port = Some 0)
               /\ exists text, HITL_WEBHOOK_PORT p = PortText text)
    /\ (handle_alive p = false ->
        (port = None \/ port = Some 0) ->
        forall text, HITL_WEBHOOK_PORT p = PortText text ->
        exists x, start_webhook_server port p = (Raise x, p))
    /\ (fst (start_webhook_server port p) = Ok false ->
        handle_alive (snd (start_webhook_server port p)) = false
        /\ listening (snd (start_webhook_server port p)) = false).
Proof.
  intros port p. unfold start_webhook_server, handle_alive, listening.
  split; [| split].
  - intros x.
    destruct (_SERVER_THREAD p) as [[tp [|]] |]; cbn; try discriminate.
    + unfold resolve_port, env_port.
      destruct port as [n |]; [destruct (n =? 0) eqn:Hn |];
        destruct (HITL_WEBHOOK_PORT p) eqn:Hv; cbn;
        try (destruct (start_error p); discriminate);
        intros H; injection H as <-; repeat split; eauto.
      apply Z.eqb_eq in Hn. subst. now right.
    + unfold resolve_port, env_port.
      destruct port as [n |]; [destruct (n =? 0) eqn:Hn |];
        destruct (HITL_WEBHOOK_PORT p) eqn:Hv; cbn;
        try (destruct (start_error p); discriminate);
        intros H; injection H as <-; repeat split; eauto.
      apply Z.eqb_eq in Hn. subst. now right.
  - intros Ha Hport text Hv. rewrite Ha.
    unfold resolve_port, env_port.
    destruct Hport as [-> | ->]; cbn; rewrite Hv; eexists; reflexivity.
  - destruct (_SERVER_THREAD p) as [[tp [|]] |]; cbn; try discriminate;
      (destruct (resolve_port port p); [| discriminate]);
      destruct (start_error p); cbn; try discriminate; auto.
Qed.

Lemma start_webhook_server_failures_witness :
  exists x,
    start_webhook_server (Some 0) (MkProcess None (PortText "http") None [])
    = (Raise x, MkProcess None (PortText "http") None []).
Proof.
  apply (proj1 (proj2 (start_webhook_server_failures
                         (Some 0) (MkProcess None (PortText "http") None [])))
           eq_refl (or_intror eq_refl) "http" eq_refl).
Defined.


(** * Properties of the support flow *)

(** ** Stripping *)

Lemma lstrip_split (s : string) :
  exists ws, s = (ws ++ lstrip s)%string /\ all_space ws = true.
Proof.
  induction s as [| c s IH]; [now exists EmptyString |].
  cbn [lstrip]. destruct (is_space c) eqn:Hc.
  - destruct IH as [ws [Hs Hws]]. exists (String c ws). cbn.
    rewrite Hc, Hws. split; [now rewrite <- Hs | reflexivity].
  - now exists EmptyString.
Qed.

Lemma lstrip_head (s : string) (c : ascii) (rest : string) :
  lstrip s = String c rest -> is_space c = false.
Proof.
  induction s as [| d s IH]; [discriminate |].
  cbn [lstrip]. destruct (is_space d) eqn:Hd; [assumption |].
  intros H. injection H as <- _. assumption.
Qed.

Lemma rstrip_split (s : string) :
  exists ws, s = (rstrip s ++ ws)%string /\ all_space ws = true.
Proof.
  induction s as [| c s IH]; [now exists EmptyString |].
  cbn [rstrip]. destruct IH as [ws [Hs Hws]].
  destruct (rstrip s) as [| d kept] eqn:Hr.
  - destruct (is_space c) eqn:Hc.
    + exists (String c ws). cbn in *. rewrite Hc, Hws. subst s. now split.
    + exists ws. cbn in *. subst s. now split.
  - exists ws. split; [| assumption]. cbn. f_equal. exact Hs.
Qed.

Lemma rstrip_last (s : string) (d : ascii) :
  last_char (rstrip s) = Some d -> is_space d = false.
Proof.
  induction s as [| c s IH]; [discriminate |].
  cbn [rstrip]. destruct (rstrip s) as [| d' kept] eqn:Hr.
  - destruct (is_space c) eqn:Hc; cbn; [discriminate |].
    intros H. injection H as <-. assumption.
  - cbn [last_char] in *. exact IH.
Qed.

Lemma rstrip_head (s : string) (c : ascii) (rest : string) :
  rstrip s = String c rest -> exists rest', s = String c rest'.
Proof.
  destruct s as [| d s]; [discriminate |].
  cbn [rstrip]. destruct (rstrip s).
  - destruct (is_space d); [discriminate |]. intros H. injection H as <- _.
    now eexists.
  - intros H. injection H as <- _. now eexists.
Qed.

Lemma strip_trimmed (s : string) : trimmed (strip s) = true.
Proof.
  unfold strip, trimmed.
  pose proof (rstrip_last (lstrip s)) as Hlast.
  destruct (rstrip (lstrip s)) as [| c rest] eqn:Hr; [reflexivity |].
  destruct (rstrip_head _ _ _ Hr) as [rest' Hl].
  rewrite (lstrip_head _ _ _ Hl). cbn [negb andb].
  destruct (last_char (String c rest)) as [d |]; [| reflexivity].
  now rewrite (Hlast d eq_refl).
Qed.

Lemma strip_split (s : string) :
  exists before after,
    s = (before ++ strip s ++ after)%string
    /\ all_space before = true /\ all_space after = true.
Proof.
  destruct (lstrip_split s) as [before [Hs Hb]].
  destruct (rstrip_split (lstrip s)) as [after [Hl Ha]].
  exists before, after. unfold strip. rewrite <- Hl. auto.
Qed.

Lemma string_mem_app (c : ascii) (a b : string) :
  string_mem c (a ++ b) = string_mem c a || string_mem c b.
Proof.
  induction a as [| d a IH]; [reflexivity |].
  cbn. now rewrite IH, orb_assoc.
Qed.

Lemma strip_one_line (s : string) : one_line s = true -> one_line (strip s) = true.
Proof.
  unfold one_line. destruct (strip_split s) as [before [after [Hs _]]].
  rewrite Hs at 1. rewrite !string_mem_app, !negb_orb, !andb_true_iff. tauto.
Qed.

(** ** Searching a header *)

Lemma take_line_split (s : string) :
  exists rest,
    s = (take_line s ++ rest)%string
    /\ one_line (take_line s) = true /\ line_end rest = true.
Proof.
  unfold one_line. induction s as [| c s IH]; [now exists EmptyString |].
  cbn [take_line]. destruct (Ascii.eqb c newline) eqn:Hc.
  - exists (String c s). cbn. now rewrite Hc.
  - destruct IH as [rest [Hs [Hone Hend]]]. exists rest.
    split; [cbn [append]; f_equal; exact Hs |].
    split; [| exact Hend].
    cbn [string_mem]. rewrite Ascii.eqb_sym, Hc. exact Hone.
Qed.

Lemma newline_is_space : is_space newline = true.
Proof. reflexivity. Qed.

Lemma spaces_then_line_sound (text group : string) :
  spaces_then_line text = Some group ->
  exists ws rest,
    text = (ws ++ group ++ rest)%string
    /\ all_space ws = true
    /\ group <> EmptyString
    /\ one_line group = true
    /\ line_end rest = true.
Proof.
  revert group. induction text as [| c text IH]; [discriminate |].
  intros group. cbn [spaces_then_line].
  assert (Hhere : Ascii.eqb c newline = false ->
                  Some (take_line (String c text)) = Some group ->
                  exists ws rest,
                    String c text = (ws ++ group ++ rest)%string
                    /\ all_space ws = true /\ group <> EmptyString
                    /\ one_line group = true /\ line_end rest = true).
  { intros Hc H. injection H as <-.
    destruct (take_line_split (String c text)) as [rest [Hs [Hone Hend]]].
    exists EmptyString, rest. repeat split; try assumption.
    cbn [take_line]. rewrite Hc. discriminate. }
  destruct (is_space c) eqn:Hsp.
  - destruct (spaces_then_line text) as [g |] eqn:Hrec.
    + intros H. injection H as <-.
      destruct (IH g eq_refl) as [ws [rest [Hs [Hws [Hg [Hone Hend]]]]]].
      exists (String c ws), rest. cbn. rewrite Hsp, Hws.
      repeat split; try assumption. now rewrite <- Hs.
    + destruct (Ascii.eqb c newline) eqn:Hc; [discriminate | now apply Hhere].
  - apply Hhere. destruct (Ascii.eqb c newline) eqn:Hc; [| reflexivity].
    apply Ascii.eqb_eq in Hc. subst c. discriminate.
Qed.

Lemma match_here_split (label raw : string) :
  match_here label raw = true ->
  exists lab,
    raw = (lab ++ drop_chars (String.length label) raw)%string
    /\ lower lab = lower label.
Proof.
  revert raw. induction label as [| p label IH]; intros raw.
  - intros _. now exists EmptyString.
  - destruct raw as [| c raw]; [discriminate |]. cbn [match_here].
    rewrite andb_true_iff, Ascii.eqb_eq. intros [Hc Hrest].
    destruct (IH raw Hrest) as [lab [Hraw Hlab]].
    exists (String c lab). cbn. rewrite <- Hraw, Hc, Hlab. auto.
Qed.

Lemma search_header_found (label raw group : string) :
  search_header label raw = Some group ->
  exists before lab ws rest,
    raw = (before ++ lab ++ ws ++ group ++ rest)%string
    /\ lower lab = lower label
    /\ all_space ws = true
    /\ group <> EmptyString
    /\ one_line group = true
    /\ line_end rest = true.
Proof.
  revert group. induction raw as [| c raw IH]; intros group.
  - cbn [search_header]. destruct (match_here label EmptyString) eqn:Hm;
      [| discriminate].
    destruct (spaces_then_line (drop_chars (String.length label) EmptyString))
      as [g |] eqn:Hg; [| discriminate].
    intros H. injection H as <-.
    destruct (match_here_split _ _ Hm) as [lab [Hraw Hlab]].
    destruct (spaces_then_line_sound _ _ Hg) as [ws [rest [Hs Hrest]]].
    exists EmptyString, lab, ws, rest. rewrite <- Hs. cbn. auto.
  - cbn [search_header].
    destruct (match_here label (String c raw)) eqn:Hm.
    + destruct (spaces_then_line (drop_chars (String.length label) (String c raw)))
        as [g |] eqn:Hg.
      * intros H. injection H as <-.
        destruct (match_here_split _ _ Hm) as [lab [Hraw Hlab]].
        destruct (spaces_then_line_sound _ _ Hg) as [ws [rest [Hs Hrest]]].
        exists EmptyString, lab, ws, rest. rewrite <- Hs. cbn. auto.
      * intros H. destruct (IH group H) as [before [lab [ws [rest [Hraw Hrest]]]]].
        exists (String c before), lab, ws, rest. cbn. rewrite <- Hraw. auto.
    + intros H. destruct (IH group H) as [before [lab [ws [rest [Hraw Hrest]]]]].
      exists (String c before), lab, ws, rest. cbn. rewrite <- Hraw. auto.
Qed.

Lemma search_header_absent (label raw : string) :
  ~ contains_ci label raw -> search_header label raw = None.
Proof.
  intros Hno.
  assert (Hs : re_search_ignorecase label raw = false).
  { apply not_true_iff_false. now rewrite re_search_ignorecase_contains. }
  clear Hno. induction raw as [| c raw IH].
  - cbn in Hs |- *. rewrite orb_false_r in Hs. now rewrite Hs.
  - cbn [re_search_ignorecase] in Hs. apply orb_false_iff in Hs.
    destruct Hs as [Hm Hrest]. cbn [search_header]. rewrite Hm. now apply IH.
Qed.

(** X17. What the pattern of a header extracts.  When the search of
    [label] followed by white space and a line finds a value, the text is
    some prefix, the label in some letter case, white space (line feeds
    included), then the value, which is not empty, holds no line feed and
    runs to the end of its line.  When the text holds the label in no
    letter case the search finds nothing. *)
Theorem search_header_sound :
  forall label raw : string,
    (forall group,
        search_header label raw = Some group ->
        exists before lab ws rest,
          raw = (before ++ lab ++ ws ++ group ++ rest)%string
          /\ lower lab = lower label
          /\ all_space ws = true
          /\ group <> EmptyString
          /\ one_line group = true
          /\ line_end rest = true)
    /\ (~ contains_ci label raw -> search_header label raw = None).
Proof.
  intros label raw. split.
  - intros group. apply search_header_found.
  - apply search_header_absent.
Qed.

Lemma search_header_sound_witness :
  exists before lab ws rest,
    "Subject: x
from:  Ann
BODY:"%string = (before ++ lab ++ ws ++ "Ann" ++ rest)%string
    /\ lower lab = lower "FROM:"
    /\ all_space ws = true
    /\ "Ann"%string <> EmptyString
    /\ one_line "Ann" = true
    /\ line_end rest = true.
Proof.
  apply (proj1 (search_header_sound "FROM:" "Subject: x
from:  Ann
BODY:")).
  reflexivity.
Defined.

(** ** The sender *)

Section Sender.

Variable parseaddr : string -> string * string.

(** X18. [_extract_sender_from_raw] gives the empty text when the answer
    holds no "FROM:" in any letter case.  When the search finds a value, it
    gives the address [parseaddr] finds in the value stripped, and when
    [parseaddr] finds none the stripped value itself, which is one line
    without white space at either end. *)
Theorem extract_sender_from_raw_cases :
  forall raw : string,
    (~ contains_ci "FROM:" raw ->
     _extract_sender_from_raw parseaddr raw = EmptyString)
    /\ (forall group,
           search_header "FROM:" raw = Some group ->
           let value := strip group in
           (snd (parseaddr value) <> EmptyString ->
            _extract_sender_from_raw parseaddr raw = snd (parseaddr value))
           /\ (snd (parseaddr value) = EmptyString ->
               _extract_sender_from_raw parseaddr raw = value)
           /\ trimmed value = true
           /\ one_line value = true).
Proof.
  intros raw. unfold _extract_sender_from_raw. split.
  - intros Hno. now rewrite (search_header_absent _ _ Hno).
  - intros group Hg. cbv zeta. rewrite Hg. unfold nonempty.
    split; [| split; [| split]].
    + intros Hne. apply String.eqb_neq in Hne. now rewrite Hne.
    + intros Hnone. now rewrite Hnone.
    + apply strip_trimmed.
    + apply strip_one_line.
      destruct (search_header_found _ _ _ Hg)
        as [_ [_ [_ [_ [_ [_ [_ [_ [H _]]]]]]]]].
      exact H.
Qed.

End Sender.

Lemma extract_sender_from_raw_cases_witness :
  _extract_sender_from_raw (fun _ => (EmptyString, EmptyString)) "no sender here"
  = EmptyString.
Proof.
  apply (proj1 (extract_sender_from_raw_cases
                  (fun _ => (EmptyString, EmptyString)) "no sender here")).
  intros H. apply re_search_ignorecase_contains in H. discriminate H.
Defined.

(** ** Runs of the flow *)

Section Runs.

Variable parseaddr : string -> string * string.
Variable ext : collaborators.

Lemma check_has_draft_needs_review (result : string) (st : SupportState) :
  String.eqb (check_has_draft result st) "needs_review"
  = nonempty (draft st) && negb (String.eqb result no_support_email).
Proof.
  unfold check_has_draft.
  destruct (nonempty (draft st)); destruct (String.eqb result no_support_email);
    reflexivity.
Qed.

Lemma run_flow_unfetched :
  forall st0 : SupportState,
    nothing_fetched (gmail_fetch ext) = true ->
    run_flow parseaddr ext st0
    = (on_no_email,
       MkSupportState EmptyString (original_sender st0) (email_subject st0)
         (draft st0) EmptyString,
       [Fetch]).
Proof.
  intros st0 H. unfold run_flow, fetch_email. rewrite H.
  unfold extract_and_search. cbn [email_content nonempty negb String.eqb].
  rewrite check_has_draft_needs_review, String.eqb_refl, andb_false_r.
  reflexivity.
Qed.

(** X19. When the answer of the fetch crew is empty, or has "no " or
    "error" among its first 50 characters, letter case apart, a run ends
    in [on_no_email] after the fetch alone: the support crew is not run,
    nobody is asked and nothing is sent, whatever draft the state held. *)
Theorem run_flow_nothing_fetched :
  forall st0 : SupportState,
    nothing_fetched (gmail_fetch ext) = true ->
    run_flow parseaddr ext st0
    = (on_no_email,
       MkSupportState EmptyString (original_sender st0) (email_subject st0)
         (draft st0) EmptyString,
       [Fetch]).
Proof.
  intros st0 H. unfold run_flow, fetch_email, extract_and_search. rewrite H.
  cbn [email_content nonempty negb String.eqb].
  unfold check_has_draft. rewrite String.eqb_refl, orb_true_r.
  reflexivity.
Qed.

(** The state a run works on after the two first methods, when something
    was fetched. *)
Lemma run_flow_fetched (st0 : SupportState) :
  nothing_fetched (gmail_fetch ext) = false ->
  let raw := gmail_fetch ext in
  let answer := support_crew ext raw in
  let st2 :=
    MkSupportState raw (_extract_sender_from_raw parseaddr raw)
      (match search_header "SUBJECT:" raw with
       | Some group => strip group
       | None => "Re: Support"
       end)
      answer raw in
  run_flow parseaddr ext st0
  = if nonempty answer && negb (String.eqb answer no_support_email)
    then match human ext answer with
         | approved =>
             (fst (send_email ext st2), st2,
              [Fetch; Support raw; Review answer] ++ snd (send_email ext st2))
         | rejected => (on_rejected, st2, [Fetch; Support raw; Review answer])
         end
    else (on_no_email, st2, [Fetch; Support raw]).
Proof.
  intros H raw answer st2. unfold run_flow, fetch_email. rewrite H.
  fold raw. unfold extract_and_search. cbn [email_content].
  assert (Hraw : nonempty raw = true).
  { unfold nothing_fetched in H. fold raw in H.
    destruct (nonempty raw); [reflexivity | discriminate]. }
  rewrite Hraw. cbn [negb]. fold answer.
  cbn [email_raw original_sender email_subject email_content]. fold st2.
  rewrite check_has_draft_needs_review. cbn [draft st2].
  destruct (nonempty answer && negb (String.eqb answer no_support_email));
    [| reflexivity].
  unfold request_review. cbn [draft st2].
  destruct (human ext answer); [| reflexivity].
  destruct (send_email ext st2); reflexivity.
Qed.

(** X20. In every run the human is asked at most about the draft the
    support crew wrote for the fetched email, a draft that is neither empty
    nor the text "No support email to process."; and an email is sent only
    after the human approved that draft, to a sender that is not empty, with
    the description built from the final state. *)
Theorem run_flow_guards :
  forall st0 : SupportState,
    let raw := gmail_fetch ext in
    let answer := support_crew ext raw in
    let final := snd (fst (run_flow parseaddr ext st0)) in
    let calls := snd (run_flow parseaddr ext st0) in
    (forall shown,
        In (Review shown) calls ->
        nothing_fetched raw = false
        /\ shown = answer
        /\ answer <> EmptyString
        /\ answer <> no_support_email)
    /\ (forall description,
           In (Send description) calls ->
           In (Review answer) calls
           /\ human ext answer = approved
           /\ draft final = answer
           /\ original_sender final = _extract_sender_from_raw parseaddr raw
           /\ original_sender final <> EmptyString
           /\ description = send_description final).
Proof.
  intros st0 raw answer final calls. subst final calls.
  destruct (nothing_fetched (gmail_fetch ext)) eqn:Hf.
  - rewrite (run_flow_unfetched st0 Hf). cbn [fst snd In].
    split; intros x [H | []]; discriminate H.
  - rewrite (run_flow_fetched st0 Hf). cbv zeta. fold raw answer.
    destruct (nonempty answer) eqn:Hne; cbn [andb];
      [| cbn [fst snd In]; split; intros x [H | [H | []]]; discriminate H].
    destruct (String.eqb answer no_support_email) eqn:Hmark; cbn [negb];
      [cbn [fst snd In]; split; intros x [H | [H | []]]; discriminate H |].
    assert (Ha : answer <> EmptyString).
    { intros E. unfold nonempty in Hne. rewrite E in Hne. discriminate. }
    apply String.eqb_neq in Hmark.
    destruct (human ext answer) eqn:Hh.
    + unfold send_email. cbn [original_sender draft]. rewrite Hne. cbn [negb].
      rewrite orb_false_r.
      destruct (nonempty (_extract_sender_from_raw parseaddr raw)) eqn:Hs;
        cbn [negb fst snd app In].
      * split.
        -- intros x [H | [H | [H | [H | []]]]]; try discriminate H.
           injection H as <-. auto.
        -- intros x [H | [H | [H | [H | []]]]]; try discriminate H.
           injection H as <-. repeat split; auto.
           intros E. cbn [original_sender] in E. unfold nonempty in Hs.
           rewrite E in Hs. discriminate.
      * split.
        -- intros x [H | [H | [H | []]]]; try discriminate H.
           injection H as <-. auto.
        -- intros x [H | [H | [H | []]]]; discriminate H.
    + cbn [fst snd In]. split.
      * intros x [H | [H | [H | []]]]; try discriminate H.
        injection H as <-. auto.
      * intros x [H | [H | [H | []]]]; discriminate H.
Qed.

End Runs.

Lemma run_flow_nothing_fetched_witness :
  run_flow (fun _ => (EmptyString, EmptyString))
    (MkCollaborators "Error: inbox unavailable" (fun _ => "draft")
       (fun _ => approved) (fun _ => "sent"))
    initial_state
  = (on_no_email, initial_state, [Fetch]).
Proof.
  apply (run_flow_nothing_fetched (fun _ => (EmptyString, EmptyString))
           (MkCollaborators "Error: inbox unavailable" (fun _ => "draft")
              (fun _ => approved) (fun _ => "sent"))
           initial_state).
  reflexivity.
Defined.

Lemma run_flow_guards_witness :
  let ext := MkCollaborators "FROM: ann@x.org" (fun _ => "Dear Ann")
               (fun _ => approved) (fun _ => "sent") in
  let run := run_flow (fun _ => (EmptyString, EmptyString)) ext initial_state in
  human ext "Dear Ann" = approved
  /\ draft (snd (fst run)) = "Dear Ann"
  /\ original_sender (snd (fst run)) = "ann@x.org".
Proof.
  cbv zeta.
  destruct (proj2 (run_flow_guards (fun _ => (EmptyString, EmptyString))
                     (MkCollaborators "FROM: ann@x.org" (fun _ => "Dear Ann")
                        (fun _ => approved) (fun _ => "sent"))
                     initial_state)
              ("Send an email using gmail/send_email with:
to: ann@x.org
subject: Re: Re: Support
body: Dear Ann")) as [_ [H1 [H2 [H3 _]]]].
  - cbn. auto.
  - split; [exact H1 | split; [exact H2 | exact H3]].
Defined.

(** ** An answer in the requested format *)

Lemma spaces_then_line_skip (ws : string) (c : ascii) (rest : string) :
  all_space ws = true ->
  is_space c = false ->
  spaces_then_line (ws ++ String c rest) = Some (take_line (String c rest)).
Proof.
  intros Hws Hc. induction ws as [| d ws IH].
  - cbn [append spaces_then_line]. now rewrite Hc.
  - cbn [all_space] in Hws. apply andb_true_iff in Hws. destruct Hws as [Hd Hws].
    cbn [append spaces_then_line]. now rewrite Hd, (IH Hws).
Qed.

Lemma take_line_app (line rest : string) :
  one_line line = true ->
  take_line (line ++ String newline rest) = line.
Proof.
  unfold one_line. induction line as [| c line IH]; intros H.
  - cbn [append take_line]. now rewrite Ascii.eqb_refl.
  - cbn [string_mem] in H. rewrite negb_orb, andb_true_iff in H.
    destruct H as [Hc Hline]. cbn [append take_line].
    rewrite Ascii.eqb_sym. apply negb_true_iff in Hc. rewrite Hc.
    now rewrite (IH Hline).
Qed.

Lemma lstrip_some (s : string) :
  all_space s = false ->
  exists c rest, lstrip s = String c rest /\ is_space c = false.
Proof.
  induction s as [| d s IH]; [discriminate |].
  cbn [all_space lstrip]. destruct (is_space d) eqn:Hd.
  - cbn [andb]. exact IH.
  - intros _. now exists d, s.
Qed.

Lemma lstrip_idem (s : string) : lstrip (lstrip s) = lstrip s.
Proof.
  induction s as [| c s IH]; [reflexivity |].
  cbn [lstrip]. destruct (is_space c) eqn:Hc; [assumption |].
  cbn [lstrip]. now rewrite Hc.
Qed.

Lemma lstrip_one_line (s : string) : one_line s = true -> one_line (lstrip s) = true.
Proof.
  unfold one_line. destruct (lstrip_split s) as [ws [Hs _]].
  rewrite Hs at 1. rewrite string_mem_app, negb_orb, andb_true_iff. tauto.
Qed.

(** The value of a line "label, white space, text" at the start of [raw]. *)
Lemma header_line_value (padding text rest : string) :
  all_space padding = true ->
  all_space text = false ->
  one_line text = true ->
  spaces_then_line (padding ++ text ++ String newline rest) = Some (lstrip text).
Proof.
  intros Hp Ht Hone.
  destruct (lstrip_split text) as [ws [Hs Hws]].
  destruct (lstrip_some text Ht) as [c [tail [Hl Hc]]].
  assert (Hone' : one_line (String c tail) = true).
  { rewrite <- Hl. now apply lstrip_one_line. }
  rewrite Hs at 1. rewrite Hl at 1.
  replace (padding ++ (ws ++ String c tail) ++ String newline rest)%string
    with ((padding ++ ws) ++ String c (tail ++ String newline rest))%string.
  - rewrite spaces_then_line_skip; [| | assumption].
    + change (String c (tail ++ String newline rest))
        with (String c tail ++ String newline rest)%string.
      now rewrite (take_line_app _ _ Hone'), Hl.
    + clear - Hp Hws. induction padding as [| d padding IH]; [assumption |].
      cbn [all_space append] in *. apply andb_true_iff in Hp.
      destruct Hp as [Hd Hp]. now rewrite Hd, (IH Hp).
  - clear. induction padding as [| d padding IH].
    + cbn [append]. induction ws as [| d ws IH]; [reflexivity |].
      cbn [append]. now rewrite IH.
    + cbn [append]. now rewrite IH.
Qed.

Lemma search_header_here (label raw group : string) :
  match_here label raw = true ->
  spaces_then_line (drop_chars (String.length label) raw) = Some group ->
  search_header label raw = Some group.
Proof.
  intros Hm Hg. destruct raw; cbn [search_header]; now rewrite Hm, Hg.
Qed.

Lemma match_here_app (label a b : string) :
  (String.length label <= String.length a)%nat ->
  match_here label (a ++ b) = match_here label a.
Proof.
  revert a. induction label as [| p label IH]; intros a H; [reflexivity |].
  destruct a as [| c a]; [cbn in H; lia |].
  cbn [append match_here]. cbn [String.length] in H.
  rewrite IH; [reflexivity | lia].
Qed.

Lemma re_search_suffix (label a b : string) :
  re_search_ignorecase label (a ++ b) = false ->
  re_search_ignorecase label b = false.
Proof.
  induction a as [| c a IH]; [trivial |].
  cbn [append re_search_ignorecase]. intros H.
  apply orb_false_iff in H. now apply IH.
Qed.

Lemma re_search_here (label text : string) :
  re_search_ignorecase label text = false -> match_here label text = false.
Proof.
  destruct text; cbn [re_search_ignorecase]; intros H;
    apply orb_false_iff in H; tauto.
Qed.

Lemma search_header_skip (label before tail : string) :
  (forall p1 p2, before = (p1 ++ p2)%string -> p2 <> EmptyString ->
                 match_here label (p2 ++ tail) = false) ->
  search_header label (before ++ tail) = search_header label tail.
Proof.
  induction before as [| c before IH]; intros H; [reflexivity |].
  cbn [append search_header].
  assert (Hm : match_here label (String c before ++ tail) = false)
    by (apply (H EmptyString (String c before) eq_refl); discriminate).
  cbn [append] in Hm. rewrite Hm.
  apply IH. intros p1 p2 Hb Hp2. apply (H (String c p1) p2); [| assumption].
  cbn [append]. now rewrite Hb.
Qed.

Lemma length_append (a b : string) :
  String.length (a ++ b) = (String.length a + String.length b)%nat.
Proof.
  induction a as [| c a IH]; [reflexivity |]. cbn. now rewrite IH.
Qed.

(** The two header lines of an answer in the requested format. *)
Lemma formatted_subject (subject sender body : string) :
  all_space subject = false ->
  one_line subject = true ->
  search_header "SUBJECT:" (formatted_email subject sender body)
  = Some (lstrip subject).
Proof.
  intros Hs Hone. apply search_header_here; [reflexivity |].
  change (drop_chars (String.length "SUBJECT:") (formatted_email subject sender body))
    with (" " ++ subject
          ++ String newline ("FROM: " ++ sender ++ chr newline
                             ++ "BODY:" ++ chr newline ++ body))%string.
  now apply header_line_value.
Qed.

Lemma formatted_sender (subject sender body : string) :
  all_space sender = false ->
  one_line sender = true ->
  re_search_ignorecase "FROM:" ("SUBJECT: " ++ subject ++ chr newline ++ "FROM")
  = false ->
  search_header "FROM:" (formatted_email subject sender body)
  = Some (lstrip sender).
Proof.
  intros Hs Hone Hnofrom.
  set (tail := (": " ++ sender ++ String newline ("BODY:" ++ chr newline ++ body))%string).
  assert (Hsplit : formatted_email subject sender body
                   = (("SUBJECT: " ++ subject ++ chr newline) ++ "FROM" ++ tail)%string).
  { unfold formatted_email, tail, chr. cbn [append].
    rewrite append_assoc. reflexivity. }
  rewrite Hsplit, search_header_skip.
  - apply search_header_here; [reflexivity |].
    change (drop_chars (String.length "FROM:") ("FROM" ++ tail))
      with (" " ++ sender ++ String newline ("BODY:" ++ chr newline ++ body))%string.
    now apply header_line_value.
  - intros p1 p2 Hb Hp2.
    rewrite <- append_assoc, match_here_app.
    + apply re_search_here, (re_search_suffix _ p1).
      rewrite <- append_assoc, <- Hb.
      replace (("SUBJECT: " ++ subject ++ chr newline) ++ "FROM")%string
        with ("SUBJECT: " ++ subject ++ chr newline ++ "FROM")%string;
        [exact Hnofrom |].
      unfold chr. cbn [append]. rewrite append_assoc. reflexivity.
    + rewrite length_append. destruct p2; [congruence | cbn; lia].
Qed.

Section Formatted.

Variable parseaddr : string -> string * string.
Variable ext : collaborators.

(** X21. On an answer in the requested format, "SUBJECT: subject", "FROM:
    sender", "BODY:" and the body on their lines, that passes the test of
    [fetch_email], with a subject and a sender that are single lines and not
    blank, and a subject line that holds no "from:" label: the state gets
    the subject stripped, the sender [parseaddr] finds in the sender text
    stripped (that text itself when it finds none), and the whole answer as
    content; the draft is left as it was. *)
Theorem fetch_email_formatted :
  forall (st : SupportState) (subject sender body : string),
    gmail_fetch ext = formatted_email subject sender body ->
    nothing_fetched (gmail_fetch ext) = false ->
    one_line subject = true ->
    all_space subject = false ->
    one_line sender = true ->
    all_space sender = false ->
    re_search_ignorecase "FROM:" ("SUBJECT: " ++ subject ++ chr newline ++ "FROM")
    = false ->
    let st' := snd (fst (fetch_email parseaddr ext st)) in
    email_subject st' = strip subject
    /\ original_sender st'
       = (if nonempty (snd (parseaddr (strip sender)))
          then snd (parseaddr (strip sender))
          else strip sender)
    /\ email_content st' = gmail_fetch ext
    /\ email_raw st' = gmail_fetch ext
    /\ draft st' = draft st.
Proof.
  intros st subject sender body Hraw Hfetched Hs1 Hs2 Hf1 Hf2 Hnofrom.
  unfold fetch_email. rewrite Hfetched. cbn [fst snd]. rewrite Hraw.
  cbn [email_subject original_sender email_content email_raw draft].
  unfold _extract_sender_from_raw.
  rewrite (formatted_subject _ _ _ Hs2 Hs1), (formatted_sender _ _ _ Hf2 Hf1 Hnofrom).
  unfold strip. rewrite !lstrip_idem. repeat split.
Qed.

End Formatted.

Lemma fetch_email_formatted_witness :
  let ext := MkCollaborators
               (formatted_email "Login fails" " Ann <ann@x.org> " "Hello")
               (fun _ => "draft") (fun _ => approved) (fun _ => "sent") in
  let st' := snd (fst (fetch_email (fun _ => (EmptyString, EmptyString)) ext
                         initial_state)) in
  email_subject st' = "Login fails"
  /\ original_sender st' = "Ann <ann@x.org>".
Proof.
  cbv zeta.
  destruct (fetch_email_formatted (fun _ => (EmptyString, EmptyString))
              (MkCollaborators
                 (formatted_email "Login fails" " Ann <ann@x.org> " "Hello")
                 (fun _ => "draft") (fun _ => approved) (fun _ => "sent"))
              initial_state "Login fails" " Ann <ann@x.org> " "Hello"
              eq_refl eq_refl eq_refl eq_refl eq_refl eq_refl eq_refl)
    as [H1 [H2 _]].
  split; [exact H1 | exact H2].
Defined.

Section BlankSubject.

Variable parseaddr : string -> string * string.
Variable ext : collaborators.


End BlankSubject.

